(** * The CCNet protocol engine of [src/Device.ts]

    A shallow embedding of the class [Device]: the operating timer, the
    task queue behind the [busy] flag, the receive handler with its
    checksum test and ACK/NAK replies, the timeout handler, and the
    table of device status codes.

    Node's event loop is made explicit.  The interval callback emits
    ['tick'] in the timers phase; every ['tick'] listener of the class
    defers its body with [setImmediate], so the bodies run later, in the
    check phase; frames reach the parser's ['data'] listeners in the poll
    phase, which lies between the two; the continuation of an [await]
    is a microtask.  Logging through [this.logger] is left out. *)

From Stdlib Require Import ZArith List Ascii String Bool Lia.
Import ListNotations.
Open Scope Z_scope.

(** ** Buffers *)

Module Buffer.

(** A Node [Buffer]: bytes, each in [0, 255]. *)
Definition t := list Z.

Definition length (b : t) : Z := Z.of_nat (List.length b).

(** How [Buffer.prototype.slice] reads an index: a negative one counts
    from the end, and the result is clamped to the buffer. *)
Definition offset (ln i : Z) : Z :=
  if i <? 0 then Z.max (ln + i) 0 else Z.min i ln.

(** [b.slice(start, end)] *)
Definition slice (b : t) (start end_ : Z) : t :=
  let s := offset (length b) start in
  let e := offset (length b) end_ in
  firstn (Z.to_nat (e - s)) (skipn (Z.to_nat s) b).

(** [b[i]], [-1] standing for [undefined]. *)
Definition get (b : t) (i : nat) : Z := nth i b (-1).

(** *** [b.toString()]: UTF-8 decoding

    The default encoding of [Buffer.prototype.toString] is UTF-8, and a
    malformed sequence decodes to U+FFFD.  The string is kept as its
    list of code points. *)

Definition REPLACEMENT : Z := 0xFFFD.

(** A multi-byte sequence under way: the bits read, the continuation
    bytes still due, and the range allowed for the next one. *)
Record Pending := mkPending
  { bits : Z; due : nat; lower : Z; upper : Z }.

(** A byte read with no sequence under way. *)
Definition lead (b : Z) : list Z * option Pending :=
  if b <=? 0x7F then ([b], None)
  else if (0xC2 <=? b) && (b <=? 0xDF) then
    ([], Some (mkPending (Z.land b 0x1F) 1 0x80 0xBF))
  else if (0xE0 <=? b) && (b <=? 0xEF) then
    ([], Some (mkPending (Z.land b 0xF) 2
                 (if b =? 0xE0 then 0xA0 else 0x80)
                 (if b =? 0xED then 0x9F else 0xBF)))
  else if (0xF0 <=? b) && (b <=? 0xF4) then
    ([], Some (mkPending (Z.land b 0x7) 3
                 (if b =? 0xF0 then 0x90 else 0x80)
                 (if b =? 0xF4 then 0x8F else 0xBF)))
  else ([REPLACEMENT], None).

Fixpoint decode (p : option Pending) (bs : t) : list Z :=
  match bs with
  | [] => match p with None => [] | Some _ => [REPLACEMENT] end
  | b :: rest =>
      match p with
      | None => let '(out, p') := lead b in out ++ decode p' rest
      | Some q =>
          if (lower q <=? b) && (b <=? upper q) then
            let c := Z.lor (Z.shiftl (bits q) 6) (Z.land b 0x3F) in
            match due q with
            | S (S n) => decode (Some (mkPending c (S n) 0x80 0xBF)) rest
            | _ => c :: decode None rest
            end
          else
            let '(out, p') := lead b in
            REPLACEMENT :: out ++ decode p' rest
      end
  end.

Definition toString (b : t) : list Z := decode None b.

(** [s1 === s2] on two decoded strings. *)
Fixpoint strictEq (s1 s2 : list Z) : bool :=
  match s1, s2 with
  | [], [] => true
  | x :: s1', y :: s2' => (x =? y) && strictEq s1' s2'
  | _, _ => false
  end.

(** [b.toString('hex')]: two lower-case digits a byte. *)
Definition hexDigit (n : Z) : ascii :=
  nth (Z.to_nat n) (list_ascii_of_string "0123456789abcdef") "0"%char.

Fixpoint toHex (b : t) : string :=
  match b with
  | [] => EmptyString
  | x :: rest =>
      String (hexDigit (x / 16)) (String (hexDigit (x mod 16)) (toHex rest))
  end.

(** The buffer with bit [k] of byte [i] inverted. *)
Fixpoint flipBit (b : t) (i : nat) (k : Z) : t :=
  match b, i with
  | [], _ => []
  | x :: rest, O => Z.lxor x (Z.shiftl 1 k) :: rest
  | x :: rest, S j => x :: flipBit rest j k
  end.

End Buffer.

(** ** The checksum *)

Module Utils.

(** One shift of the register, least significant bit first. *)
Definition shiftBit (poly reg : Z) : Z :=
  if Z.testbit reg 0 then Z.lxor (Z.shiftr reg 1) poly else Z.shiftr reg 1.

Definition addByte (poly reg byte : Z) : Z :=
  Nat.iter 8 (shiftBit poly) (Z.lxor reg byte).

(** Modelled from the spec: [getCRC16] of [./Utils], which [Device.ts]
    imports and whose file is not part of the sources.  The spec has a
    16-bit cyclic redundancy check over the bytes, least significant bit
    first, from a zero register, with no final inversion, laid out as
    two bytes, low byte first.  It does not name the polynomial, which is
    an argument here. *)
Definition getCRC16With (poly : Z) (buffer : Buffer.t) : Buffer.t :=
  let crc := fold_left (addByte poly) buffer 0 in
  [Z.land crc 0xFF; Z.shiftr crc 8].

(** The polynomial of the CCNet protocol, for the concrete frames below. *)
Definition CCNET_POLYNOMIAL : Z := 0x08408.

Definition getCRC16 : Buffer.t -> Buffer.t := getCRC16With CCNET_POLYNOMIAL.

End Utils.

(** ** The table of device states *)

Module DeviceStatus.

(** The members of the [const enum DeviceStatus], in the order of the
    source. *)
Inductive t :=
| POWER_UP
| POWER_UP_WITH_BILL_IN_VALIDATOR
| POWER_UP_WITH_BILL_IN_STACKER
| INITIALIZE
| IDLING
| ACCEPTING
| STACKING
| RETURNING
| UNIT_DISABLED
| HOLDING
| DEVICE_BUSY
| REJECTING_DUE_TO_INSERTION
| REJECTING_DUE_TO_MAGNETIC
| REJECTING_DUE_TO_REMAINED_BILL_IN_HEAD
| REJECTING_DUE_TO_MULTIPLYING
| REJECTING_DUE_TO_CONVEYING
| REJECTING_DUE_TO_IDENTIFICATION
| REJECTING_DUE_TO_VERIFICATION
| REJECTING_DUE_TO_OPTIC
| REJECTING_DUE_TO_INHIBIT
| REJECTING_DUE_TO_CAPACITY
| REJECTING_DUE_TO_OPERATION
| REJECTING_DUE_TO_LENGTH
| REJECTING_DUE_TO_UNRECOGNISED_BARCODE
| REJECTING_DUE_TO_UV
| REJECTING_DUE_TO_INCORRECT_NUMBER_OF_CHARACTERS_IN_BARCODE
| REJECTING_DUE_TO_UNKNOWN_BARCODE_START_SEQUENCE
| REJECTING_DUE_TO_UNKNOWN_BARCODE_STOP_SEQUENCE
| DROP_CASSETTE_FULL
| DROP_CASSETTE_OUT_OF_POSITION
| VALIDATOR_JAMMED
| DROP_CASSETTE_JAMMED
| CHEATED
| PAUSE
| STACK_MOTOR_FAILURE
| TRANSPORT_MOTOR_SPEED_FAILURE
| TRANSPORT_MOTOR_FAILURE
| ALIGNING_MOTOR_FAILURE
| INITIAL_CASSETTE_STATUS_FAILURE
| OPTIC_CANAL_FAILURE
| MAGNETIC_CANAL_FAILURE
| CAPACITANCE_CANAL_FAILURE
| ESCROW_POSITION
| BILL_STACKED
| BILL_RETURNED.

(** The value of each member: the state's code in hexadecimal. *)
Definition code (s : t) : string :=
  match s with
  | POWER_UP => "10"
  | POWER_UP_WITH_BILL_IN_VALIDATOR => "11"
  | POWER_UP_WITH_BILL_IN_STACKER => "12"
  | INITIALIZE => "13"
  | IDLING => "14"
  | ACCEPTING => "15"
  | STACKING => "17"
  | RETURNING => "18"
  | UNIT_DISABLED => "19"
  | HOLDING => "1a"
  | DEVICE_BUSY => "1b"
  | REJECTING_DUE_TO_INSERTION => "1c60"
  | REJECTING_DUE_TO_MAGNETIC => "1c61"
  | REJECTING_DUE_TO_REMAINED_BILL_IN_HEAD => "1c62"
  | REJECTING_DUE_TO_MULTIPLYING => "1c63"
  | REJECTING_DUE_TO_CONVEYING => "1c64"
  | REJECTING_DUE_TO_IDENTIFICATION => "1c65"
  | REJECTING_DUE_TO_VERIFICATION => "1c66"
  | REJECTING_DUE_TO_OPTIC => "1c67"
  | REJECTING_DUE_TO_INHIBIT => "1c68"
  | REJECTING_DUE_TO_CAPACITY => "1c69"
  | REJECTING_DUE_TO_OPERATION => "1c6a"
  | REJECTING_DUE_TO_LENGTH => "1c6c"
  | REJECTING_DUE_TO_UNRECOGNISED_BARCODE => "1c92"
  | REJECTING_DUE_TO_UV => "1c6d"
  | REJECTING_DUE_TO_INCORRECT_NUMBER_OF_CHARACTERS_IN_BARCODE => "1c93"
  | REJECTING_DUE_TO_UNKNOWN_BARCODE_START_SEQUENCE => "1c94"
  | REJECTING_DUE_TO_UNKNOWN_BARCODE_STOP_SEQUENCE => "1c95"
  | DROP_CASSETTE_FULL => "41"
  | DROP_CASSETTE_OUT_OF_POSITION => "42"
  | VALIDATOR_JAMMED => "43"
  | DROP_CASSETTE_JAMMED => "44"
  | CHEATED => "45"
  | PAUSE => "46"
  | STACK_MOTOR_FAILURE => "4750"
  | TRANSPORT_MOTOR_SPEED_FAILURE => "4751"
  | TRANSPORT_MOTOR_FAILURE => "4752"
  | ALIGNING_MOTOR_FAILURE => "4753"
  | INITIAL_CASSETTE_STATUS_FAILURE => "4754"
  | OPTIC_CANAL_FAILURE => "4755"
  | MAGNETIC_CANAL_FAILURE => "4756"
  | CAPACITANCE_CANAL_FAILURE => "475f"
  | ESCROW_POSITION => "80"
  | BILL_STACKED => "81"
  | BILL_RETURNED => "82"
  end.

Definition all : list t :=
  [POWER_UP;
   POWER_UP_WITH_BILL_IN_VALIDATOR;
   POWER_UP_WITH_BILL_IN_STACKER;
   INITIALIZE;
   IDLING;
   ACCEPTING;
   STACKING;
   RETURNING;
   UNIT_DISABLED;
   HOLDING;
   DEVICE_BUSY;
   REJECTING_DUE_TO_INSERTION;
   REJECTING_DUE_TO_MAGNETIC;
   REJECTING_DUE_TO_REMAINED_BILL_IN_HEAD;
   REJECTING_DUE_TO_MULTIPLYING;
   REJECTING_DUE_TO_CONVEYING;
   REJECTING_DUE_TO_IDENTIFICATION;
   REJECTING_DUE_TO_VERIFICATION;
   REJECTING_DUE_TO_OPTIC;
   REJECTING_DUE_TO_INHIBIT;
   REJECTING_DUE_TO_CAPACITY;
   REJECTING_DUE_TO_OPERATION;
   REJECTING_DUE_TO_LENGTH;
   REJECTING_DUE_TO_UNRECOGNISED_BARCODE;
   REJECTING_DUE_TO_UV;
   REJECTING_DUE_TO_INCORRECT_NUMBER_OF_CHARACTERS_IN_BARCODE;
   REJECTING_DUE_TO_UNKNOWN_BARCODE_START_SEQUENCE;
   REJECTING_DUE_TO_UNKNOWN_BARCODE_STOP_SEQUENCE;
   DROP_CASSETTE_FULL;
   DROP_CASSETTE_OUT_OF_POSITION;
   VALIDATOR_JAMMED;
   DROP_CASSETTE_JAMMED;
   CHEATED;
   PAUSE;
   STACK_MOTOR_FAILURE;
   TRANSPORT_MOTOR_SPEED_FAILURE;
   TRANSPORT_MOTOR_FAILURE;
   ALIGNING_MOTOR_FAILURE;
   INITIAL_CASSETTE_STATUS_FAILURE;
   OPTIC_CANAL_FAILURE;
   MAGNETIC_CANAL_FAILURE;
   CAPACITANCE_CANAL_FAILURE;
   ESCROW_POSITION;
   BILL_STACKED;
   BILL_RETURNED].

(** The table read from code to state: the member holding the code. *)
Definition ofCode (c : string) : option t :=
  find (fun s => String.eqb (code s) c) all.

End DeviceStatus.

(** ** Tasks, commands and errors *)

(** [new Exception(code, message)] *)
Record Exception := mkException { code : Z; message : string }.

(** A [Command]: [request(params)] builds the bytes to send and
    [response(data)] reads the reply; [inr] is a [response] that throws.
    [data] is [None] where the caller passes [null]. *)
Record Command := mkCommand
  { request : Buffer.t -> Buffer.t;
    response : option Buffer.t -> Buffer.t + Exception }.

(** The two callbacks that [Device.ts] hands to [new Task]: the closure of
    [execute], which settles the caller's promise through [command], and
    the closure of [onTick] for the [Poll] it adds. *)
Inductive Sink :=
| ExecuteSink (command : Command)
| PollSink.

(** [new Task(data, done, timeout)].  [id] is the identity of the object:
    every [new Task] yields a fresh one. *)
Record Task := mkTask
  { id : nat; data : Buffer.t; done : Sink; timeout : Z }.

(** What the engine does to the outside, in order. *)
Inductive Effect :=
| Write (bytes : Buffer.t)
| Done (task : Task) (error : option Exception) (payload : option Buffer.t)
| Reject (task : nat) (error : Exception)
| Resolve (task : nat) (value : Buffer.t)
| OnStatus (status : option Buffer.t)
| Uncaught (error : Exception)
| UnhandledRejection (error : Exception).

(** A callback queued with [setImmediate]: the body of the constructor's
    ['tick'] listener, or the body of a task's [timeoutHandler]. *)
Inductive Immediate :=
| RunOnTick
| RunTimeout (task : Task).

(** ** The state of a [Device] *)

Record Device := mkDevice
  { busy : bool;
    queue : list Task;
    isOpen : bool;                      (* serial.isOpen *)
    timerInterval : bool;               (* the interval is running *)
    tickListeners : list Task;          (* timeoutHandler closures on 'tick' *)
    dataListeners : list Task;          (* handler closures on the parser's 'data' *)
    timeoutCounter : list (nat * Z);    (* the variable of each timeoutHandler *)
    immediates : list Immediate;
    nextId : nat;
    effects : list Effect }.

Definition timerMs : Z := 100.

(** A device as the constructor leaves it. *)
Definition newDevice : Device :=
  mkDevice false [] false false [] [] [] [] 0 [].

Definition setBusy (b : bool) (d : Device) : Device :=
  mkDevice b (queue d) (isOpen d) (timerInterval d) (tickListeners d)
    (dataListeners d) (timeoutCounter d) (immediates d) (nextId d) (effects d).

Definition setQueue (q : list Task) (d : Device) : Device :=
  mkDevice (busy d) q (isOpen d) (timerInterval d) (tickListeners d)
    (dataListeners d) (timeoutCounter d) (immediates d) (nextId d) (effects d).

Definition setIsOpen (b : bool) (d : Device) : Device :=
  mkDevice (busy d) (queue d) b (timerInterval d) (tickListeners d)
    (dataListeners d) (timeoutCounter d) (immediates d) (nextId d) (effects d).

Definition setTimerInterval (b : bool) (d : Device) : Device :=
  mkDevice (busy d) (queue d) (isOpen d) b (tickListeners d)
    (dataListeners d) (timeoutCounter d) (immediates d) (nextId d) (effects d).

Definition setTickListeners (l : list Task) (d : Device) : Device :=
  mkDevice (busy d) (queue d) (isOpen d) (timerInterval d) l
    (dataListeners d) (timeoutCounter d) (immediates d) (nextId d) (effects d).

Definition setDataListeners (l : list Task) (d : Device) : Device :=
  mkDevice (busy d) (queue d) (isOpen d) (timerInterval d) (tickListeners d)
    l (timeoutCounter d) (immediates d) (nextId d) (effects d).

Definition setTimeoutCounter (c : list (nat * Z)) (d : Device) : Device :=
  mkDevice (busy d) (queue d) (isOpen d) (timerInterval d) (tickListeners d)
    (dataListeners d) c (immediates d) (nextId d) (effects d).

Definition setImmediates (l : list Immediate) (d : Device) : Device :=
  mkDevice (busy d) (queue d) (isOpen d) (timerInterval d) (tickListeners d)
    (dataListeners d) (timeoutCounter d) l (nextId d) (effects d).

Definition setNextId (n : nat) (d : Device) : Device :=
  mkDevice (busy d) (queue d) (isOpen d) (timerInterval d) (tickListeners d)
    (dataListeners d) (timeoutCounter d) (immediates d) n (effects d).

Definition emit (e : Effect) (d : Device) : Device :=
  mkDevice (busy d) (queue d) (isOpen d) (timerInterval d) (tickListeners d)
    (dataListeners d) (timeoutCounter d) (immediates d) (nextId d)
    (effects d ++ [e]).

(** [removeListener]: the listener goes, once, if it is there. *)
Fixpoint removeListener (t : Task) (l : list Task) : list Task :=
  match l with
  | [] => []
  | x :: rest => if Nat.eqb (id x) (id t) then rest else x :: removeListener t rest
  end.

Fixpoint readCounter (c : list (nat * Z)) (k : nat) : Z :=
  match c with
  | [] => 0
  | (k', v) :: rest => if Nat.eqb k' k then v else readCounter rest k
  end.

Fixpoint writeCounter (c : list (nat * Z)) (k : nat) (v : Z) : list (nat * Z) :=
  match c with
  | [] => [(k, v)]
  | (k', v') :: rest =>
      if Nat.eqb k' k then (k, v) :: rest else (k', v') :: writeCounter rest k v
  end.

(** [onStatus (status: Buffer) {}] *)
Definition onStatus (status : option Buffer.t) (d : Device) : Device := d.

(** [task.done(error, payload)]: the device afterwards, and the
    exception if the callback throws. *)
Definition callDone (t : Task) (error : option Exception)
    (payload : option Buffer.t) (d : Device) : Device * option Exception :=
  let d := emit (Done t error payload) d in
  match done t with
  | ExecuteSink command =>
      let d := match error with
               | Some e => emit (Reject (id t) e) d
               | None => d
               end in
      match response command payload with
      | inl v => (emit (Resolve (id t) v) d, None)
      | inr e => (d, Some e)
      end
  | PollSink =>
      match error with
      | Some e => (d, Some e)
      | None => (onStatus payload (emit (OnStatus payload) d), None)
      end
  end.

(** Where an [async] handler is suspended. *)
Inductive Await :=
| AfterNak (task : Task) (response : Buffer.t)
| AfterAck (task : Task) (response : Buffer.t).

(** What the outside does to the engine. *)
Inductive Event :=
| Execute (command : Command) (params : Buffer.t) (timeout : Z)
| Interval                       (* the operating timer fires *)
| Check                          (* the queued immediates run *)
| Data (response : Buffer.t)     (* the parser emits a frame *)
| SerialOpen                     (* the port reports 'open' *)
| SerialError                    (* the port reports 'error' *)
| Disconnect.

Section Engine.

(** What [Device.ts] imports and the sources do not hold: the checksum
    of [./Utils] and three commands of [./Commands]. *)
Variable getCRC16 : Buffer.t -> Buffer.t.
Variables Ack Nak Poll : Command.

(** The test of lines 433-438, [true] when the frame passes. *)
Definition checkCRC (response : Buffer.t) : bool :=
  let ln := Buffer.length response in
  let check := Buffer.slice response (ln - 2) ln in
  let slice := Buffer.slice response 0 (ln - 2) in
  Buffer.strictEq (Buffer.toString check) (Buffer.toString (getCRC16 slice)).

(** [response.slice(3, ln-2)] *)
Definition payloadOf (response : Buffer.t) : Buffer.t :=
  Buffer.slice response 3 (Buffer.length response - 2).

(** A throw inside the [async] handler rejects its promise, which
    nobody holds, and ends the handler. *)
Definition rejected (r : Device * option Exception) : Device * option Exception :=
  match r with
  | (d, Some e) => (emit (UnhandledRejection e) d, Some e)
  | (d, None) => (d, None)
  end.

(** Lines 468-472. *)
Definition complete (t : Task) (response : Buffer.t) (d : Device) : Device :=
  fst (rejected (callDone t None (Some (payloadOf response)) (setBusy false d))).

(** Lines 449-472, up to the [await] of the ACK if there is one. *)
Definition dispatchResponse (t : Task) (response : Buffer.t) (d : Device)
  : Device * option Await :=
  let data := payloadOf response in
  if (Buffer.length data =? 1) && (Buffer.get data 0 =? 0x00) then
    (complete t response d, None)
  else if (Buffer.length data =? 1) && (Buffer.get data 0 =? 0xFF) then
    match rejected (callDone t
                      (Some (mkException 11 "Wrong request data hash.")) None
                      (setBusy false d)) with
    | (d', Some _) => (d', None)
    | (d', None) => (complete t response d', None)
    end
  else
    (emit (Write (request Ack [])) d, Some (AfterAck t response)).

(** The [handler] of a task from its call to its first [await]. *)
Definition handler (t : Task) (response : Buffer.t) (d : Device)
  : Device * option Await :=
  let d := setTickListeners (removeListener t (tickListeners d)) d in
  let d := setDataListeners (removeListener t (dataListeners d)) d in
  if negb (checkCRC response) then
    (emit (Write (request Nak [])) d, Some (AfterNak t response))
  else dispatchResponse t response d.

(** The [handler] from an [await] to the next one. *)
Definition resume (k : Await) (d : Device) : Device * option Await :=
  match k with
  | AfterNak t response =>
      match rejected (callDone t
                        (Some (mkException 11 "Wrong response data hash.")) None
                        (setBusy false d)) with
      | (d', Some _) => (d', None)
      | (d', None) => dispatchResponse t response d'
      end
  | AfterAck t response => (complete t response d, None)
  end.

(** One round: each step in turn, the awaits it leaves kept in order. *)
Definition round {A : Type} (f : A -> Device -> Device * option Await)
    (xs : list A) (d : Device) : Device * list Await :=
  fold_left
    (fun (acc : Device * list Await) (x : A) =>
       let '(d', k) := f x (fst acc) in
       (d', snd acc ++ match k with Some a => [a] | None => [] end))
    xs (d, []).

(** The parser emits a frame: the listeners present are called in the
    order they were added, each up to its first [await]; then the
    microtasks run, first in first out.  A handler awaits twice at most. *)
Definition emitData (response : Buffer.t) (d : Device) : Device :=
  let '(d1, k1) := round (fun t => handler t response) (dataListeners d) d in
  let '(d2, k2) := round resume k1 d1 in
  fst (round resume k2 d2).

(** The body that [timeoutHandler] defers (lines 410-416). *)
Definition timeoutHandler (t : Task) (d : Device) : Device :=
  let c := readCounter (timeoutCounter d) (id t) + timerMs in
  let d := setTimeoutCounter (writeCounter (timeoutCounter d) (id t) c) d in
  if c >=? timeout t then
    let d := setBusy false d in
    let d := setTickListeners (removeListener t (tickListeners d)) d in
    match callDone t (Some (mkException 10 "Request timeout.")) None d with
    | (d', Some e) => emit (Uncaught e) d'
    | (d', None) => d'
    end
  else d.

(** The [Poll] task of lines 492-498. *)
Definition pollTask (n : nat) : Task := mkTask n (request Poll []) PollSink 1000.

(** [onTick] *)
Definition onTick (d : Device) : Device :=
  if busy d then d
  else
    match queue d with
    | task :: rest =>
        let d := setQueue rest d in
        let d := setBusy true d in
        let d := setTimeoutCounter (writeCounter (timeoutCounter d) (id task) 0) d in
        let d := setDataListeners (dataListeners d ++ [task]) d in
        let d := emit (Write (data task)) d in
        if timeout task =? 0 then d
        else setTickListeners (tickListeners d ++ [task]) d
    | [] =>
        setNextId (S (nextId d)) (setQueue [pollTask (nextId d)] d)
    end.

(** [execute], as far as the device goes: the task joins the queue. *)
Definition execute (command : Command) (params : Buffer.t) (tmo : Z)
    (d : Device) : Device :=
  let task := mkTask (nextId d) (request command params) (ExecuteSink command) tmo in
  setNextId (S (nextId d)) (setQueue (queue d ++ [task]) d).

(** The interval's callback: [emit('tick')].  The constructor's listener
    is the first one; each listener queues its body. *)
Definition emitTick (d : Device) : Device :=
  setImmediates
    (immediates d ++ RunOnTick :: map RunTimeout (tickListeners d)) d.

Definition runImmediate (d : Device) (i : Immediate) : Device :=
  match i with
  | RunOnTick => onTick d
  | RunTimeout t => timeoutHandler t d
  end.

(** The check phase: the immediates queued so far run in order. *)
Definition runImmediates (d : Device) : Device :=
  fold_left runImmediate (immediates d) (setImmediates [] d).

Definition onSerialPortOpen (d : Device) : Device := setTimerInterval true d.
Definition onSerialPortError (d : Device) : Device := setTimerInterval false d.
Definition onSerialPortClose (d : Device) : Device := setTimerInterval false d.

(** [close]: an open port is closed and reports 'close'. *)
Definition close (d : Device) : Device :=
  if isOpen d then onSerialPortClose (setIsOpen false d) else d.

(** [disconnect] *)
Definition disconnect (d : Device) : Device := close d.

Definition step (d : Device) (e : Event) : Device :=
  match e with
  | Execute command params tmo => execute command params tmo d
  | Interval => if timerInterval d then emitTick d else d
  | Check => runImmediates d
  | Data response => emitData response d
  | SerialOpen => onSerialPortOpen (setIsOpen true d)
  | SerialError => onSerialPortError d
  | Disconnect => disconnect d
  end.

Definition run (d : Device) (es : list Event) : Device := fold_left step es d.

End Engine.

(** ** Reading a run *)

(** The tasks whose callback was called, in the order of the calls. *)
Fixpoint completions (es : list Effect) : list nat :=
  match es with
  | [] => []
  | Done t _ _ :: rest => id t :: completions rest
  | _ :: rest => completions rest
  end.

(** How often the callback of task [n] was called. *)
Definition timesDone (n : nat) (es : list Effect) : nat :=
  count_occ Nat.eq_dec (completions es) n.

(** The errors handed to the callback of task [n], in order. *)
Fixpoint errorsOf (n : nat) (es : list Effect) : list Exception :=
  match es with
  | [] => []
  | Done t (Some e) _ :: rest =>
      if Nat.eqb (id t) n then e :: errorsOf n rest else errorsOf n rest
  | _ :: rest => errorsOf n rest
  end.

Fixpoint writes (es : list Effect) : list Buffer.t :=
  match es with
  | [] => []
  | Write b :: rest => b :: writes rest
  | _ :: rest => writes rest
  end.

(** A list without its repetitions, first occurrences kept. *)
Fixpoint firsts (seen l : list nat) : list nat :=
  match l with
  | [] => []
  | x :: rest =>
      if existsb (Nat.eqb x) seen then firsts seen rest
      else x :: firsts (x :: seen) rest
  end.

(** The tasks whose [handler] listens for a frame and whose callback has
    not been called: the requests sent and still open. *)
Definition awaiting (d : Device) : list nat :=
  filter (fun n => negb (existsb (Nat.eqb n) (completions (effects d))))
    (map id (dataListeners d)).

(** ** Concrete frames and commands *)

(** Modelled from the spec: the wire frame of a payload (sync, address,
    total length, payload, checksum).  The sync and address constants of
    [./Const/CCNet] are not part of the sources; [0x02] and [0x03] are the
    CCNet values. *)
Definition assemble (payload : Buffer.t) : Buffer.t :=
  let head := [0x02; 0x03; 5 + Buffer.length payload] ++ payload in
  head ++ Utils.getCRC16 head.

(** A command that sends [payload] and hands the reply back as it is. *)
Definition plain (payload : Buffer.t) : Command :=
  mkCommand (fun _ => assemble payload)
            (fun d => inl match d with Some b => b | None => [] end).

Definition AckCommand : Command := plain [0x00].
Definition NakCommand : Command := plain [0xFF].
Definition PollCommand : Command := plain [0x33].

(** A command of the caller's, with the payload byte [0x37]. *)
Definition Inquiry : Command := plain [0x37].

(** The engine with the CCNet checksum and these commands. *)
Definition ccnetStep : Device -> Event -> Device :=
  step Utils.getCRC16 AckCommand NakCommand PollCommand.
Definition ccnetRun : Device -> list Event -> Device :=
  run Utils.getCRC16 AckCommand NakCommand PollCommand.

(** An open device whose timer runs. *)
Definition openDevice : Device := ccnetRun newDevice [SerialOpen].

(** One period of the timer with nothing arriving: the tick, then its
    immediates. *)
Definition period : list Event := [Interval; Check].

Fixpoint periods (n : nat) : list Event :=
  match n with
  | O => []
  | S m => period ++ periods m
  end.

(** Between two ticks the immediates of the first have run. *)
Fixpoint scheduled (pending : bool) (es : list Event) : bool :=
  match es with
  | [] => true
  | Interval :: rest => negb pending && scheduled true rest
  | Check :: rest => scheduled false rest
  | _ :: rest => scheduled pending rest
  end.

(** ** Vocabulary of the statements *)

(** Everything of a device but its effects. *)
Definition control (d : Device) :=
  (busy d, queue d, isOpen d, timerInterval d, tickListeners d,
   dataListeners d, timeoutCounter d, immediates d, nextId d).

(** Effects that neither write to the port nor call a task's callback. *)
Definition quiet (es : list Effect) : Prop :=
  completions es = [] /\ writes es = [].

(** One handler run on its own from a suspension to its end. *)
Definition settle (Ack : Command) (r : Device * option Await) : Device :=
  match r with
  | (d, None) => d
  | (d, Some k) =>
      match resume Ack k d with
      | (d', None) => d'
      | (d', Some k') => fst (resume Ack k' d')
      end
  end.

(** Task [t] is in flight and nothing else is going on: its [handler]
    and its [timeoutHandler] are the only listeners, the counter stands
    at [c], the timer runs and no immediate is queued. *)
Definition waiting (t : Task) (c : Z) (d : Device) : Prop :=
  busy d = true /\ timerInterval d = true /\ immediates d = [] /\
  tickListeners d = [t] /\ dataListeners d = [t] /\
  readCounter (timeoutCounter d) (id t) = c.

(** The task a suspended handler belongs to. *)
Definition awaitTask (k : Await) : Task :=
  match k with
  | AfterNak t _ => t
  | AfterAck t _ => t
  end.

(** A handler without its two listeners. *)
Definition strip (t : Task) (d : Device) : Device :=
  setDataListeners (removeListener t (dataListeners d))
    (setTickListeners (removeListener t (tickListeners d)) d).

(** [d'] comes from [d] by steps of handlers of the tasks [ids]: the
    queue, the counter of identities, the immediates and the timer are
    untouched, [busy] is as it was or cleared, and the callbacks called
    are those of tasks in [ids]. *)
Record moved (ids : list nat) (d d' : Device) : Prop := mkMoved
  { moved_queue : queue d' = queue d;
    moved_nextId : nextId d' = nextId d;
    moved_immediates : immediates d' = immediates d;
    moved_timer : timerInterval d' = timerInterval d;
    moved_busy : busy d' = busy d \/ busy d' = false;
    moved_effects :
      exists l, effects d' = effects d ++ l /\ incl (completions l) ids }.

(** The callback of task [n] is called somewhere between [d] and [d']. *)
Definition logged (n : nat) (d d' : Device) : Prop :=
  exists l, effects d' = effects d ++ l /\ In n (completions l).

(** No frame arrives between a tick and the immediates of that tick. *)
Fixpoint prompt (es : list Event) : bool :=
  match es with
  | [] => true
  | Interval :: rest =>
      match rest with
      | Check :: rest' => prompt rest'
      | _ => false
      end
  | _ :: rest => prompt rest
  end.


(** A callback that returns when handed an error. *)
Definition returnsOnError (t : Task) : Prop :=
  exists command v, done t = ExecuteSink command /\ response command None = inl v.

Definition requestTimeout : Exception := mkException 10 "Request timeout.".
Definition wrongResponseHash : Exception := mkException 11 "Wrong response data hash.".
Definition wrongRequestHash : Exception := mkException 11 "Wrong request data hash.".

(** *** Runs used as examples *)

(** A frame that passes the checksum test, with a one-byte status. *)
Definition goodFrame : Buffer.t := assemble [0x10].

(** The same bytes with two zero bytes for a checksum. *)
Definition badFrame : Buffer.t := [0x02; 0x03; 0x06; 0x10; 0x00; 0x00].

Definition ackFrame : Buffer.t := assemble [0x00].
Definition nakFrame : Buffer.t := assemble [0xFF].

(** The task of the first command executed. *)
Definition firstTask : Task :=
  mkTask 0 (assemble [0x37]) (ExecuteSink Inquiry) 1000.

(** One command is executed and its task sent at the first tick. *)
Definition oneInFlight : list Event :=
  [SerialOpen; Execute Inquiry [] 1000; Interval; Check].

(** The device once that task is sent, and nine silent periods later. *)
Definition inFlightDevice : Device := ccnetRun newDevice oneInFlight.
Definition almostDue : Device := ccnetRun newDevice (oneInFlight ++ periods 9).

(** Three commands; the reply to the first arrives after the tick at
    which its timeout is due and before that tick's immediates run. *)
Definition lateReply : list Event :=
  [SerialOpen;
   Execute Inquiry [] 100;
   Execute Inquiry [] 0;
   Execute Inquiry [] 100;
   Interval; Check;
   Interval; Data goodFrame; Check;
   Interval; Check].

(** Two commands executed, the first one sent, and then [disconnect]. *)
Definition closedMidway : list Event :=
  [SerialOpen;
   Execute Inquiry [] 1000;
   Execute Inquiry [] 1000;
   Interval; Check;
   Disconnect].

(** The device just before that [disconnect]. *)
Definition midway : Device := ccnetRun newDevice (removelast closedMidway).

(** Two commands and the same late reply, then the timer alone. *)
Definition twoPolls : list Event :=
  [SerialOpen;
   Execute Inquiry [] 100;
   Execute Inquiry [] 300;
   Interval; Check;
   Interval; Data goodFrame; Check] ++ periods 6.

(** ** Promises, and tasks the device has let go *)

(** What the promise that [execute] made for task [n] has settled to: a
    promise keeps the first call of its [resolve] or [reject] and ignores
    the later ones.  [None] is a promise still pending. *)
Fixpoint settlement (n : nat) (es : list Effect) : option (Buffer.t + Exception) :=
  match es with
  | [] => None
  | Resolve m v :: rest => if Nat.eqb m n then Some (inl v) else settlement n rest
  | Reject m e :: rest => if Nat.eqb m n then Some (inr e) else settlement n rest
  | _ :: rest => settlement n rest
  end.

(** The tasks whose [resolve] or [reject] is called, in order. *)
Fixpoint settlers (es : list Effect) : list nat :=
  match es with
  | [] => []
  | Resolve m _ :: rest => m :: settlers rest
  | Reject m _ :: rest => m :: settlers rest
  | _ :: rest => settlers rest
  end.

(** The tasks whose timeout body is queued. *)
Fixpoint immediateIds (l : list Immediate) : list nat :=
  match l with
  | [] => []
  | RunOnTick :: rest => immediateIds rest
  | RunTimeout t :: rest => id t :: immediateIds rest
  end.

(** Task [n] was created and the device holds it nowhere: not in the
    queue, not as a listener, not in a queued timeout body. *)
Definition forgotten (n : nat) (d : Device) : Prop :=
  (n < nextId d)%nat /\
  ~ In n (map id (queue d)) /\
  ~ In n (map id (tickListeners d)) /\
  ~ In n (map id (dataListeners d)) /\
  ~ In n (immediateIds (immediates d)).

(** The log of [d'] is the log of [d] and more, and in what was added a
    promise is settled only for a task whose callback is called there. *)
Definition orderly (d d' : Device) : Prop :=
  exists l,
    effects d' = effects d ++ l /\ incl (settlers l) (completions l).

(** The log of [d'] is the log of [d] and more, and what was added has
    neither a call of the callback of task [n] nor a settling of its
    promise. *)
Definition untouched (n : nat) (d d' : Device) : Prop :=
  exists l,
    effects d' = effects d ++ l /\
    ~ In n (completions l) /\ ~ In n (settlers l).


(** An event that neither brings a frame nor reopens the port. *)
Definition quietEvent (e : Event) : bool :=
  match e with
  | Data _ => false
  | SerialOpen => false
  | _ => true
  end.

(** The engine at rest: nothing in flight, nothing queued, no listener
    and no immediate left, the timer running. *)
Definition atRest (d : Device) : Prop :=
  busy d = false /\ queue d = [] /\ tickListeners d = [] /\
  dataListeners d = [] /\ immediates d = [] /\ timerInterval d = true.

(** A payload that is not the single byte [0xFF]. *)
Definition notNak (payload : Buffer.t) : bool :=
  negb ((Buffer.length payload =? 1) && (Buffer.get payload 0 =? 0xFF)).

(** A payload that is not the single byte [0x00]. *)
Definition notAck (payload : Buffer.t) : bool :=
  negb ((Buffer.length payload =? 1) && (Buffer.get payload 0 =? 0x00)).

(** ** [asyncOnce] *)

Module AsyncOnce.

(** The calls that a wait makes of the two functions of its promise. *)
Inductive Call := CallResolve | CallReject.

(** One call of [asyncOnce(event, timeout)] (lines 532-559): the
    variable [timeoutCounter], whether the listener added with
    [once(event)] and the [timeoutHandler] added with [on('tick')] are
    still registered, the bodies that [timeoutHandler] has queued with
    [setImmediate], and the calls made so far. *)
Record Wait := mkWait
  { event : string;
    timeout : Z;
    timeoutCounter : Z;
    onEvent : bool;
    onTick : bool;
    deferred : nat;
    calls : list Call }.

(** [asyncOnce(event, timeout)]: the listener of [event] is added first,
    the timeout handler after it and only when [timeout] is not zero. *)
Definition asyncOnce (event : string) (timeout : Z) : Wait :=
  mkWait event timeout 0 true (negb (timeout =? 0)) 0 [].

(** The listener of [event] (lines 547-553). *)
Definition listener (w : Wait) : Wait :=
  mkWait (event w) (timeout w) (timeoutCounter w) false
    (if timeout w =? 0 then onTick w else false)
    (deferred w) (calls w ++ [CallResolve]).

(** [timeoutHandler]: it queues its body. *)
Definition timeoutHandler (w : Wait) : Wait :=
  mkWait (event w) (timeout w) (timeoutCounter w) (onEvent w) (onTick w)
    (S (deferred w)) (calls w).

(** The device emits the event [name]: the listeners registered when the
    emission starts are called, in the order in which they were added. *)
Definition emit (name : string) (w : Wait) : Wait :=
  let heard := onEvent w && String.eqb name (event w) in
  let ticked := onTick w && String.eqb name "tick" in
  let w1 := if heard then listener w else w in
  if ticked then timeoutHandler w1 else w1.

(** The body queued by [timeoutHandler] (lines 538-543). *)
Definition body (w : Wait) : Wait :=
  let c := timeoutCounter w + timerMs in
  if c >=? timeout w then
    mkWait (event w) (timeout w) c (onEvent w) false (deferred w)
      (calls w ++ [CallReject])
  else
    mkWait (event w) (timeout w) c (onEvent w) (onTick w) (deferred w) (calls w).

(** The check phase: the queued bodies run. *)
Definition check (w : Wait) : Wait :=
  Nat.iter (deferred w) body
    (mkWait (event w) (timeout w) (timeoutCounter w) (onEvent w) (onTick w)
       0 (calls w)).

Inductive Happening :=
| Emit (name : string)
| Check.

Definition step (w : Wait) (h : Happening) : Wait :=
  match h with
  | Emit name => emit name w
  | Check => check w
  end.

Definition run (w : Wait) (hs : list Happening) : Wait := fold_left step hs w.

(** One period of the timer: the tick, then its immediates. *)
Definition tickPeriod : list Happening := [Emit "tick"; Check].

Fixpoint tickPeriods (n : nat) : list Happening :=
  match n with
  | O => []
  | S m => tickPeriod ++ tickPeriods m
  end.

(** A wait with its promise pending, its listeners in place and no body
    queued, as [asyncOnce] and the silent periods after it leave it. *)
Definition pending (w : Wait) : Prop :=
  calls w = [] /\ onEvent w = true /\ deferred w = 0%nat /\
  onTick w = negb (timeout w =? 0).

End AsyncOnce.

(** ** [connect] *)





Section Connecting.

Variable getCRC16 : Buffer.t -> Buffer.t.
Variables Ack Nak Poll : Command.

(** The commands of [./Commands] that [connect] executes. *)
Variables Reset Identification GetBillTable GetCRC32OfTheCode : Command.







End Connecting.



(** The tasks whose callback was called, in the order of the calls. *)
Fixpoint completedTasks (es : list Effect) : list Task :=
  match es with
  | [] => []
  | Done t _ _ :: rest => t :: completedTasks rest
  | _ :: rest => completedTasks rest
  end.


(** *** More runs used as examples *)







(** One command answered, then two periods of polling. *)
Definition answeredRun : list Event :=
  oneInFlight ++ [Data goodFrame] ++ periods 2.

(** The device after that run. *)
Definition answeredDevice : Device := ccnetRun newDevice answeredRun.

(** A wait for ['connect'] with the default timeout. *)
Definition connectWait : AsyncOnce.Wait := AsyncOnce.asyncOnce "connect" 1000.



(** * Properties *)

(** ** Buffers and the checksum test *)

Lemma slice_front (b c : Buffer.t) :
  Buffer.slice (b ++ c) 0 (Buffer.length (b ++ c) - Buffer.length c) = b.
Proof.
  unfold Buffer.slice, Buffer.offset, Buffer.length.
  rewrite List.length_app, Nat2Z.inj_add.
  replace (Z.of_nat (List.length b) + Z.of_nat (List.length c) - Z.of_nat (List.length c))
    with (Z.of_nat (List.length b)) by lia.
  destruct (Z.of_nat (List.length b) <? 0) eqn:E; [apply Z.ltb_lt in E; lia|].
  simpl. rewrite !Z.min_l by lia.
  rewrite Z.sub_0_r, Nat2Z.id. simpl.
  rewrite firstn_app, Nat.sub_diag, firstn_all.
  simpl. apply app_nil_r.
Qed.

Lemma slice_back (b c : Buffer.t) :
  Buffer.slice (b ++ c) (Buffer.length (b ++ c) - Buffer.length c)
    (Buffer.length (b ++ c)) = c.
Proof.
  unfold Buffer.slice, Buffer.offset, Buffer.length.
  rewrite List.length_app, Nat2Z.inj_add.
  replace (Z.of_nat (List.length b) + Z.of_nat (List.length c) - Z.of_nat (List.length c))
    with (Z.of_nat (List.length b)) by lia.
  destruct (Z.of_nat (List.length b) <? 0) eqn:E; [apply Z.ltb_lt in E; lia|].
  destruct (Z.of_nat (List.length b) + Z.of_nat (List.length c) <? 0) eqn:E';
    [apply Z.ltb_lt in E'; lia|].
  rewrite !Z.min_l by lia.
  replace (Z.of_nat (List.length b) + Z.of_nat (List.length c) - Z.of_nat (List.length b))
    with (Z.of_nat (List.length c)) by lia.
  rewrite !Nat2Z.id, skipn_app, skipn_all, Nat.sub_diag. simpl.
  apply firstn_all.
Qed.

Lemma strictEq_refl (s : list Z) : Buffer.strictEq s s = true.
Proof.
  induction s as [|x s IH]; simpl; [reflexivity|].
  now rewrite Z.eqb_refl, IH.
Qed.

Lemma strictEq_eq (s1 s2 : list Z) : Buffer.strictEq s1 s2 = true -> s1 = s2.
Proof.
  revert s2; induction s1 as [|x s1 IH]; intros [|y s2]; simpl;
    try discriminate; [reflexivity|].
  intros H. apply andb_prop in H as [Hx Hs].
  apply Z.eqb_eq in Hx. subst. f_equal. now apply IH.
Qed.

(** A byte of the form [10xxxxxx] on its own decodes to U+FFFD. *)
Lemma lead_continuation (b : Z) :
  0x80 <= b <= 0xBF -> Buffer.lead b = ([Buffer.REPLACEMENT], None).
Proof.
  intros H. unfold Buffer.lead.
  destruct (b <=? 0x7F) eqn:E1; [apply Z.leb_le in E1; lia|].
  destruct (0xC2 <=? b) eqn:E2; [apply Z.leb_le in E2; lia|].
  destruct (0xE0 <=? b) eqn:E3; [apply Z.leb_le in E3; lia|].
  destruct (0xF0 <=? b) eqn:E4; [apply Z.leb_le in E4; lia|].
  reflexivity.
Qed.

(** Inverting one of the six low bits of such a byte gives another one. *)
Lemma flip_continuation (b k : Z) :
  0x80 <= b <= 0xBF -> 0 <= k < 6 ->
  0x80 <= Z.lxor b (Z.shiftl 1 k) <= 0xBF /\ Z.lxor b (Z.shiftl 1 k) <> b.
Proof.
  intros Hb Hk.
  assert (Hc : b = 128 + b mod 64 /\ 0 <= b mod 64 < 64).
  { split; [|apply Z.mod_pos_bound; lia].
    pose proof (Z.div_mod b 64 ltac:(lia)) as E.
    assert (b / 64 = 2) by (symmetry; apply Z.div_unique with (b - 128); lia).
    lia. }
  assert (Hk' : k = 0 \/ k = 1 \/ k = 2 \/ k = 3 \/ k = 4 \/ k = 5) by lia.
  assert (Hs : Z.shiftr (Z.lxor b (Z.shiftl 1 k)) 6 = 2).
  { rewrite Z.shiftr_lxor.
    replace (Z.shiftr (Z.shiftl 1 k) 6) with 0
      by (destruct Hk' as [->|[->|[->|[->|[->| ->]]]]]; reflexivity).
    rewrite Z.lxor_0_r, Z.shiftr_div_pow2 by lia.
    change (2 ^ 6) with 64.
    symmetry; apply Z.div_unique with (b - 128); lia. }
  rewrite Z.shiftr_div_pow2 in Hs by lia. change (2 ^ 6) with 64 in Hs.
  split.
  - assert (Hn : 0 <= Z.lxor b (Z.shiftl 1 k)).
    { apply Z.lxor_nonneg. split; intros _; [|lia].
      destruct Hk' as [->|[->|[->|[->|[->| ->]]]]]; simpl; lia. }
    pose proof (Z.div_mod (Z.lxor b (Z.shiftl 1 k)) 64 ltac:(lia)) as E.
    pose proof (Z.mod_pos_bound (Z.lxor b (Z.shiftl 1 k)) 64 ltac:(lia)).
    lia.
  - intros E. apply (f_equal (Z.lxor b)) in E.
    rewrite <- Z.lxor_assoc, Z.lxor_nilpotent, Z.lxor_0_l in E.
    destruct Hk' as [->|[->|[->|[->|[->| ->]]]]]; simpl in E; discriminate.
Qed.

Lemma flipBit_app (b c : Buffer.t) (k : Z) :
  Buffer.flipBit (b ++ c) (List.length b) k = b ++ Buffer.flipBit c 0 k.
Proof.
  induction b as [|x b IH]; simpl; [reflexivity|].
  now rewrite IH.
Qed.

Section ChecksumTest.

Variable getCRC16 : Buffer.t -> Buffer.t.

Lemma checkCRC_split (b c : Buffer.t) :
  List.length c = 2%nat ->
  checkCRC getCRC16 (b ++ c)
  = Buffer.strictEq (Buffer.toString c) (Buffer.toString (getCRC16 b)).
Proof.
  intros Hc. unfold checkCRC.
  assert (E : Buffer.length c = 2) by (unfold Buffer.length; now rewrite Hc).
  rewrite <- E, slice_front, slice_back. reflexivity.
Qed.

(** X1.  A frame that ends in the checksum of its other bytes passes. *)
Lemma checkCRC_own_checksum (b : Buffer.t) :
  List.length (getCRC16 b) = 2%nat ->
  checkCRC getCRC16 (b ++ getCRC16 b) = true.
Proof.
  intros H. rewrite checkCRC_split by assumption. apply strictEq_refl.
Qed.

(** What passes the test is a frame whose last two bytes decode to the
    same text as the checksum, no more. *)
Lemma checkCRC_same_text (b c : Buffer.t) :
  List.length c = 2%nat ->
  checkCRC getCRC16 (b ++ c) = true ->
  Buffer.toString c = Buffer.toString (getCRC16 b).
Proof.
  intros Hc H. rewrite checkCRC_split in H by assumption.
  now apply strictEq_eq.
Qed.

(** C4, the code at a failing input.  When the low byte of the checksum
    of [b] has the form [10xxxxxx], inverting any of its six low bits in
    the frame [b ++ getCRC16 b] gives a different frame that still passes
    the test of the receive handler: both bytes decode to U+FFFD, and
    the handler compares the decoded text. *)
Theorem checkCRC_accepts_flipped_checksum (b : Buffer.t) (c0 c1 k : Z) :
  getCRC16 b = [c0; c1] ->
  0x80 <= c0 <= 0xBF ->
  0 <= k < 6 ->
  let frame := Buffer.flipBit (b ++ getCRC16 b) (List.length b) k in
  frame <> b ++ getCRC16 b /\ checkCRC getCRC16 frame = true.
Proof.
  intros Hcrc Hc0 Hk frame. subst frame.
  destruct (flip_continuation c0 k Hc0 Hk) as [Hr Hne].
  rewrite flipBit_app, Hcrc. simpl Buffer.flipBit. split.
  - intros E. apply app_inv_head in E. injection E as E. contradiction.
  - rewrite checkCRC_split by reflexivity. rewrite Hcrc.
    unfold Buffer.toString. simpl.
    rewrite (lead_continuation c0 Hc0), (lead_continuation _ Hr).
    apply strictEq_refl.
Qed.

End ChecksumTest.

(** The NAK frame of the device, [02 03 06 FF BA 8D], with its checksum
    byte [BA] turned into [BB]. *)
Lemma checkCRC_accepts_flipped_checksum_witness :
  Utils.getCRC16 [0x02; 0x03; 0x06; 0xFF] = [0xBA; 0x8D] /\
  0x80 <= 0xBA <= 0xBF /\
  0 <= 0 < 6 /\
  let frame :=
    Buffer.flipBit
      ([0x02; 0x03; 0x06; 0xFF] ++ Utils.getCRC16 [0x02; 0x03; 0x06; 0xFF])
      (List.length [0x02; 0x03; 0x06; 0xFF]) 0 in
  frame <> [0x02; 0x03; 0x06; 0xFF] ++ Utils.getCRC16 [0x02; 0x03; 0x06; 0xFF] /\
  checkCRC Utils.getCRC16 frame = true.
Proof.
  assert (Hc : Utils.getCRC16 [0x02; 0x03; 0x06; 0xFF] = [0xBA; 0x8D])
    by (vm_compute; reflexivity).
  assert (H0 : 0x80 <= 0xBA <= 0xBF) by lia.
  assert (Hk : 0 <= 0 < 6) by lia.
  split; [exact Hc|]. split; [exact H0|]. split; [exact Hk|].
  exact (checkCRC_accepts_flipped_checksum Utils.getCRC16
           [0x02; 0x03; 0x06; 0xFF] 0xBA 0x8D 0 Hc H0 Hk).
Defined.

(** The frame of that witness is [02 03 06 FF BB 8D]. *)
Lemma flipped_nak_frame :
  Buffer.flipBit
    ([0x02; 0x03; 0x06; 0xFF] ++ Utils.getCRC16 [0x02; 0x03; 0x06; 0xFF]) 4 0
  = [0x02; 0x03; 0x06; 0xFF; 0xBB; 0x8D] /\
  checkCRC Utils.getCRC16 [0x02; 0x03; 0x06; 0xFF; 0xBB; 0x8D] = true /\
  checkCRC Utils.getCRC16 [0x02; 0x03; 0x06; 0xFF; 0xBA; 0x8D] = true.
Proof.
  vm_compute. repeat split.
Qed.

(** ** Reading effects *)

Lemma completions_app (l1 l2 : list Effect) :
  completions (l1 ++ l2) = completions l1 ++ completions l2.
Proof.
  induction l1 as [|e l1 IH]; simpl; [reflexivity|].
  destruct e; simpl; now rewrite IH.
Qed.

Lemma writes_app (l1 l2 : list Effect) :
  writes (l1 ++ l2) = writes l1 ++ writes l2.
Proof.
  induction l1 as [|e l1 IH]; simpl; [reflexivity|].
  destruct e; simpl; now rewrite IH.
Qed.

Lemma timesDone_app (n : nat) (l1 l2 : list Effect) :
  timesDone n (l1 ++ l2) = (timesDone n l1 + timesDone n l2)%nat.
Proof.
  unfold timesDone. now rewrite completions_app, count_occ_app.
Qed.

Lemma timesDone_Done (t : Task) e p (l : list Effect) :
  timesDone (id t) (Done t e p :: l) = S (timesDone (id t) l).
Proof.
  unfold timesDone. simpl. destruct (Nat.eq_dec (id t) (id t)); congruence.
Qed.

Lemma quiet_timesDone (n : nat) (l : list Effect) : quiet l -> timesDone n l = 0%nat.
Proof. intros [H _]. unfold timesDone. now rewrite H. Qed.

(** ** The callbacks *)

(** A callback is recorded as called, whatever it does next; it touches
    nothing of the device and neither writes nor calls a callback. *)
Lemma callDone_spec (t : Task) e p (d : Device) :
  exists tail,
    effects (fst (callDone t e p d)) = effects d ++ Done t e p :: tail /\
    quiet tail /\
    control (fst (callDone t e p d)) = control d.
Proof.
  unfold callDone. destruct (done t) as [command|].
  - destruct e as [x|]; destruct (response command p) as [v|y]; simpl.
    + exists [Reject (id t) x; Resolve (id t) v].
      rewrite <- !app_assoc. repeat split.
    + exists [Reject (id t) x]. rewrite <- !app_assoc. repeat split.
    + exists [Resolve (id t) v]. rewrite <- !app_assoc. repeat split.
    + exists []. repeat split.
  - destruct e as [x|]; simpl.
    + exists []. repeat split.
    + exists [OnStatus p]. rewrite <- !app_assoc. repeat split.
Qed.

Lemma rejected_callDone_spec (t : Task) e p (d : Device) :
  exists tail,
    effects (fst (rejected (callDone t e p d))) = effects d ++ Done t e p :: tail /\
    quiet tail /\
    control (fst (rejected (callDone t e p d))) = control d.
Proof.
  destruct (callDone_spec t e p d) as (tail & He & Hq & Hc).
  destruct (callDone t e p d) as [d' [x|]]; simpl in *.
  - exists (tail ++ [UnhandledRejection x]). rewrite He, <- app_assoc.
    repeat split.
    + destruct Hq as [Hq _]. now rewrite completions_app, Hq.
    + destruct Hq as [_ Hq]. now rewrite writes_app, Hq.
    + exact Hc.
  - exists tail. auto.
Qed.

Lemma complete_spec (t : Task) (response : Buffer.t) (d : Device) :
  exists tail,
    effects (complete t response d)
    = effects d ++ Done t None (Some (payloadOf response)) :: tail /\
    quiet tail /\
    control (complete t response d) = control (setBusy false d).
Proof.
  unfold complete.
  destruct (rejected_callDone_spec t None (Some (payloadOf response))
              (setBusy false d)) as (tail & He & Hq & Hc).
  exists tail. auto.
Qed.

(** C10.  The callback of the [Poll] task that [onTick] adds: given an
    error it throws that error, with no call of [onStatus]; given none it
    calls [onStatus] with the payload.  When the task meets its 1000 ms
    timeout, the throw leaves the timeout handler uncaught. *)
Theorem poll_callback_rethrows (Poll : Command) (n : nat) (e : Exception)
    (payload : option Buffer.t) (d : Device) :
  callDone (pollTask Poll n) (Some e) payload d
  = (emit (Done (pollTask Poll n) (Some e) payload) d, Some e) /\
  callDone (pollTask Poll n) None payload d
  = (onStatus payload
       (emit (OnStatus payload) (emit (Done (pollTask Poll n) None payload) d)),
     None) /\
  effects (ccnetRun newDevice (SerialOpen :: periods 12))
  = [Write (assemble [0x33]);
     Done (pollTask PollCommand 0) (Some requestTimeout) None;
     Uncaught requestTimeout].
Proof.
  repeat split.
Qed.

(** ** The receive handler *)

Section Receive.

Variable getCRC16 : Buffer.t -> Buffer.t.
Variables Ack Nak : Command.


(** With one handler listening, a frame runs that handler to its end. *)
Lemma emitData_single (t : Task) (response : Buffer.t) (d : Device) :
  dataListeners d = [t] ->
  emitData getCRC16 Ack Nak response d = settle Ack (handler getCRC16 Ack Nak t response d).
Proof.
  intros H. unfold emitData, round, settle.
  rewrite H. simpl.
  destruct (handler getCRC16 Ack Nak t response d) as [d1 [k|]]; simpl; [|reflexivity].
  destruct (resume Ack k d1) as [d2 [k'|]]; simpl; [|reflexivity].
  destruct (resume Ack k' d2); reflexivity.
Qed.

Lemma dispatch_ack (t : Task) (response : Buffer.t) (d : Device) :
  payloadOf response = [0x00] ->
  dispatchResponse Ack t response d = (complete t response d, None).
Proof.
  intros H. unfold dispatchResponse. now rewrite H.
Qed.

Lemma dispatch_nak (t : Task) (response : Buffer.t) (d : Device) :
  payloadOf response = [0xFF] ->
  dispatchResponse Ack t response d
  = match rejected (callDone t (Some wrongRequestHash) None (setBusy false d)) with
    | (d', Some _) => (d', None)
    | (d', None) => (complete t response d', None)
    end.
Proof.
  intros H. unfold dispatchResponse. now rewrite H.
Qed.

(** The three ways of [dispatchResponse]. *)
Lemma dispatch_cases (t : Task) (response : Buffer.t) (d : Device) :
  dispatchResponse Ack t response d = (complete t response d, None) \/
  dispatchResponse Ack t response d
  = match rejected (callDone t (Some wrongRequestHash) None (setBusy false d)) with
    | (d', Some _) => (d', None)
    | (d', None) => (complete t response d', None)
    end \/
  dispatchResponse Ack t response d
  = (emit (Write (request Ack [])) d, Some (AfterAck t response)).
Proof.
  unfold dispatchResponse.
  destruct ((Buffer.length (payloadOf response) =? 1)
            && (Buffer.get (payloadOf response) 0 =? 0)); [now left|].
  destruct ((Buffer.length (payloadOf response) =? 1)
            && (Buffer.get (payloadOf response) 0 =? 255)); [right; now left|].
  right; now right.
Qed.

(** However the frame reads, the handler calls the callback. *)
Lemma dispatch_calls_back (t : Task) (response : Buffer.t) (d : Device) :
  exists l,
    effects (settle Ack (dispatchResponse Ack t response d)) = effects d ++ l /\
    (1 <= timesDone (id t) l)%nat.
Proof.
  destruct (dispatch_cases t response d) as [E|[E|E]]; rewrite E; clear E.
  - destruct (complete_spec t response d) as (tail & He & _ & _).
    simpl. eexists. split; [exact He|]. rewrite timesDone_Done. lia.
  - destruct (rejected_callDone_spec t (Some wrongRequestHash) None
                (setBusy false d)) as (tail & He & _ & _).
    destruct (rejected _) as [d' [x|]]; simpl in *.
    + eexists. split; [exact He|]. rewrite timesDone_Done. lia.
    + destruct (complete_spec t response d') as (tail' & He' & _ & _).
      rewrite He', He, <- app_assoc. eexists. split; [reflexivity|].
      simpl. rewrite timesDone_Done. lia.
  - simpl.
    destruct (complete_spec t response (emit (Write (request Ack [])) d))
      as (tail & He & _ & _).
    rewrite He. simpl. rewrite <- app_assoc. eexists. split; [reflexivity|].
    rewrite timesDone_app, timesDone_Done. lia.
Qed.

Lemma settle_after_nak (t : Task) (response : Buffer.t) (d : Device) :
  settle Ack (d, Some (AfterNak t response))
  = match rejected (callDone t (Some wrongResponseHash) None (setBusy false d)) with
    | (d', Some _) => d'
    | (d', None) => settle Ack (dispatchResponse Ack t response d')
    end.
Proof.
  unfold settle at 1. simpl.
  change (mkException 11 "Wrong response data hash.") with wrongResponseHash.
  destruct (rejected _) as [d' [x|]]; [reflexivity|].
  destruct (dispatch_cases t response d') as [E|[E|E]]; rewrite E.
  - reflexivity.
  - destruct (rejected _) as [d2 [y|]]; reflexivity.
  - reflexivity.
Qed.

(** A frame that fails the test: the NAK is written, and once the
    write is awaited the callback gets [wrongResponseHash]. *)
Lemma handler_bad_frame (t : Task) (response : Buffer.t) (d : Device) :
  checkCRC getCRC16 response = false ->
  handler getCRC16 Ack Nak t response d
  = (emit (Write (request Nak []))
       (setDataListeners (removeListener t (dataListeners d))
          (setTickListeners (removeListener t (tickListeners d)) d)),
     Some (AfterNak t response)).
Proof.
  intros H. unfold handler. simpl. now rewrite H.
Qed.

Lemma handler_good_frame (t : Task) (response : Buffer.t) (d : Device) :
  checkCRC getCRC16 response = true ->
  handler getCRC16 Ack Nak t response d
  = dispatchResponse Ack t response
      (setDataListeners (removeListener t (dataListeners d))
         (setTickListeners (removeListener t (tickListeners d)) d)).
Proof.
  intros H. unfold handler. simpl. now rewrite H.
Qed.

Lemma callDone_returns (t : Task) (e : Exception) (d : Device) :
  returnsOnError t -> snd (rejected (callDone t (Some e) None d)) = None.
Proof.
  intros (command & v & Hd & Hr). unfold callDone. rewrite Hd, Hr. reflexivity.
Qed.

(** C1, the code at a failing input.  A frame that fails the checksum
    test makes the handler call the task's callback with the error and,
    when that call returns, call it again: the handler goes on to the
    lines that complete the task. *)
Theorem bad_frame_calls_back_twice (t : Task) (response : Buffer.t) (d : Device) :
  dataListeners d = [t] ->
  returnsOnError t ->
  checkCRC getCRC16 response = false ->
  (timesDone (id t) (effects d) + 2
   <= timesDone (id t) (effects (emitData getCRC16 Ack Nak response d)))%nat.
Proof.
  intros Hl Hr Hbad.
  rewrite (emitData_single t response d Hl), (handler_bad_frame _ _ _ Hbad).
  rewrite settle_after_nak.
  pose proof (callDone_returns t wrongResponseHash
                (setBusy false
                   (emit (Write (request Nak []))
                      (setDataListeners (removeListener t (dataListeners d))
                         (setTickListeners (removeListener t (tickListeners d)) d))))
                Hr) as Hret.
  destruct (rejected_callDone_spec t (Some wrongResponseHash) None
              (setBusy false
                 (emit (Write (request Nak []))
                    (setDataListeners (removeListener t (dataListeners d))
                       (setTickListeners (removeListener t (tickListeners d)) d)))))
    as (tail & He & _ & _).
  destruct (rejected _) as [d' [x|]]; simpl in Hret; [discriminate|].
  destruct (dispatch_calls_back t response d') as (l & He' & Hl').
  rewrite He'. simpl in He. rewrite He.
  rewrite !timesDone_app, timesDone_Done. lia.
Qed.

End Receive.

(** A device with one command in flight gets the frame [02 03 06 10 00 00]. *)
Lemma bad_frame_calls_back_twice_witness :
  dataListeners inFlightDevice = [firstTask] /\
  returnsOnError firstTask /\
  checkCRC Utils.getCRC16 badFrame = false /\
  (timesDone (id firstTask) (effects inFlightDevice) + 2
   <= timesDone (id firstTask)
        (effects (emitData Utils.getCRC16 AckCommand NakCommand badFrame
                    inFlightDevice)))%nat.
Proof.
  assert (Hl : dataListeners inFlightDevice = [firstTask])
    by (vm_compute; reflexivity).
  assert (Hr : returnsOnError firstTask)
    by (exists Inquiry, []; split; reflexivity).
  assert (Hb : checkCRC Utils.getCRC16 badFrame = false)
    by (vm_compute; reflexivity).
  split; [exact Hl|]. split; [exact Hr|]. split; [exact Hb|].
  exact (bad_frame_calls_back_twice Utils.getCRC16 AckCommand NakCommand
           firstTask badFrame inFlightDevice Hl Hr Hb).
Defined.

(** ** Where the handler leaves the device *)

Ltac control_solve :=
  unfold control in *; simpl in *;
  repeat match goal with
         | H : (_, _) = (_, _) |- _ => injection H as H; intros
         end;
  congruence.

Lemma control_setBusy (b : bool) (d d' : Device) :
  control d' = control d -> control (setBusy b d') = control (setBusy b d).
Proof. intros H. control_solve. Qed.

Section HandlerEnd.

Variable getCRC16 : Buffer.t -> Buffer.t.
Variables Ack Nak : Command.

(** Whatever the frame, [dispatchResponse] ends with [busy] cleared and
    nothing else of the device changed. *)
Lemma dispatch_control (t : Task) (response : Buffer.t) (d : Device) :
  control (settle Ack (dispatchResponse Ack t response d))
  = control (setBusy false d).
Proof.
  destruct (dispatch_cases Ack t response d) as [E|[E|E]]; rewrite E; clear E.
  - destruct (complete_spec t response d) as (_ & _ & _ & Hc). exact Hc.
  - destruct (rejected_callDone_spec t (Some wrongRequestHash) None
                (setBusy false d)) as (_ & _ & _ & Hc).
    destruct (rejected _) as [d' [x|]]; simpl in *; [exact Hc|].
    destruct (complete_spec t response d') as (_ & _ & _ & Hc').
    rewrite Hc'. apply (control_setBusy false) in Hc. exact Hc.
  - simpl.
    destruct (complete_spec t response (emit (Write (request Ack [])) d))
      as (_ & _ & _ & Hc).
    exact Hc.
Qed.

(** The handler of the one task in flight, on any frame: the task's two
    listeners are gone, [busy] is cleared, and the queue, the timer and
    the counters are as they were. *)
Lemma emitData_control (t : Task) (response : Buffer.t) (d : Device) :
  dataListeners d = [t] ->
  control (emitData getCRC16 Ack Nak response d)
  = control (setBusy false
               (setDataListeners []
                  (setTickListeners (removeListener t (tickListeners d)) d))).
Proof.
  intros Hl. rewrite (emitData_single _ _ _ t response d Hl).
  assert (Hrm : removeListener t (dataListeners d) = []).
  { rewrite Hl. simpl. now rewrite Nat.eqb_refl. }
  destruct (checkCRC getCRC16 response) eqn:Hcrc.
  - rewrite handler_good_frame by assumption.
    rewrite dispatch_control, Hrm. reflexivity.
  - rewrite handler_bad_frame by assumption.
    rewrite settle_after_nak, Hrm.
    destruct (rejected_callDone_spec t (Some wrongResponseHash) None
                (setBusy false
                   (emit (Write (request Nak []))
                      (setDataListeners []
                         (setTickListeners (removeListener t (tickListeners d)) d)))))
      as (_ & _ & _ & Hc).
    destruct (rejected _) as [d' [x|]]; simpl in Hc.
    + exact Hc.
    + rewrite dispatch_control. apply (control_setBusy false) in Hc.
      exact Hc.
Qed.

(** C2, as amended.  A frame that passes the checksum test and carries
    the single byte [0x00] ends the exchange: the handler writes no
    reply, clears [busy], leaves no listener of the task behind and
    calls the task's callback once, with no error and the payload
    [[0x00]]. *)
Theorem ack_frame_completes_task (t : Task) (response : Buffer.t) (d : Device) :
  dataListeners d = [t] ->
  checkCRC getCRC16 response = true ->
  payloadOf response = [0x00] ->
  let d' := emitData getCRC16 Ack Nak response d in
  busy d' = false /\
  dataListeners d' = [] /\
  tickListeners d' = removeListener t (tickListeners d) /\
  queue d' = queue d /\
  exists tail,
    effects d' = effects d ++ Done t None (Some [0x00]) :: tail /\ quiet tail.
Proof.
  intros Hl Hcrc Hp d'.
  pose proof (emitData_control t response d Hl) as Hc. fold d' in Hc.
  repeat split; try (clear - Hc; control_solve).
  subst d'. rewrite (emitData_single _ _ _ t response d Hl).
  rewrite handler_good_frame by assumption.
  rewrite dispatch_ack by assumption. simpl.
  destruct (complete_spec t response
              (setDataListeners (removeListener t (dataListeners d))
                 (setTickListeners (removeListener t (tickListeners d)) d)))
    as (tail & He & Hq & _).
  exists tail. rewrite He, Hp. auto.
Qed.

(** C7, as amended.  A frame that fails the checksum test has the NAK
    frame written and then the callback called with the exception
    [(11, "Wrong response data hash.")]; a frame that passes and carries
    the single byte [0xFF] has the callback called with
    [(11, "Wrong request data hash.")] before anything is written.  In
    both cases the task is not queued again.  The two exceptions carry
    the same code and differ in their message. *)
Theorem hash_errors_share_code (t : Task) (response : Buffer.t) (d : Device) :
  dataListeners d = [t] ->
  let d' := emitData getCRC16 Ack Nak response d in
  (checkCRC getCRC16 response = false ->
   queue d' = queue d /\
   exists tail,
     effects d' = effects d ++ Write (request Nak [])
                    :: Done t (Some wrongResponseHash) None :: tail) /\
  (checkCRC getCRC16 response = true -> payloadOf response = [0xFF] ->
   queue d' = queue d /\
   exists tail,
     effects d' = effects d ++ Done t (Some wrongRequestHash) None :: tail /\
     writes tail = []) /\
  code wrongResponseHash = 11 /\ code wrongRequestHash = 11 /\
  message wrongResponseHash <> message wrongRequestHash.
Proof.
  intros Hl d'.
  pose proof (emitData_control t response d Hl) as Hc. fold d' in Hc.
  assert (Hq : queue d' = queue d) by (clear - Hc; control_solve).
  split; [|split; [|repeat split; discriminate]].
  - intros Hbad. split; [exact Hq|].
    subst d'. rewrite (emitData_single _ _ _ t response d Hl).
    rewrite handler_bad_frame by assumption. rewrite settle_after_nak.
    destruct (rejected_callDone_spec t (Some wrongResponseHash) None
                (setBusy false
                   (emit (Write (request Nak []))
                      (setDataListeners (removeListener t (dataListeners d))
                         (setTickListeners (removeListener t (tickListeners d)) d)))))
      as (tail & He & _ & _).
    destruct (rejected _) as [d1 [x|]]; simpl in He.
    + exists tail. rewrite He, <- app_assoc. reflexivity.
    + destruct (dispatch_calls_back Ack t response d1) as (l & He' & _).
      exists (tail ++ l). rewrite He', He, <- !app_assoc. reflexivity.
  - intros Hok Hp. split; [exact Hq|].
    subst d'. rewrite (emitData_single _ _ _ t response d Hl).
    rewrite handler_good_frame by assumption.
    rewrite dispatch_nak by assumption.
    destruct (rejected_callDone_spec t (Some wrongRequestHash) None
                (setBusy false
                   (setDataListeners (removeListener t (dataListeners d))
                      (setTickListeners (removeListener t (tickListeners d)) d))))
      as (tail & He & [_ Hw] & _).
    destruct (rejected _) as [d1 [x|]]; simpl in *.
    + exists tail. auto.
    + destruct (complete_spec t response d1) as (tail' & He' & [_ Hw'] & _).
      exists (tail ++ Done t None (Some (payloadOf response)) :: tail').
      rewrite He', He, <- app_assoc. split; [reflexivity|].
      rewrite writes_app, Hw. simpl. exact Hw'.
Qed.

End HandlerEnd.

(** The device's ACK frame, [02 03 06 00 C2 82], reaches a device with one
    command in flight. *)
Lemma ack_frame_completes_task_witness :
  dataListeners inFlightDevice = [firstTask] /\
  checkCRC Utils.getCRC16 ackFrame = true /\
  payloadOf ackFrame = [0x00] /\
  let d' := emitData Utils.getCRC16 AckCommand NakCommand ackFrame inFlightDevice in
  busy d' = false /\
  dataListeners d' = [] /\
  tickListeners d' = removeListener firstTask (tickListeners inFlightDevice) /\
  queue d' = queue inFlightDevice /\
  exists tail,
    effects d' = effects inFlightDevice ++ Done firstTask None (Some [0x00]) :: tail /\
    quiet tail.
Proof.
  assert (Hl : dataListeners inFlightDevice = [firstTask])
    by (vm_compute; reflexivity).
  assert (Hc : checkCRC Utils.getCRC16 ackFrame = true)
    by (vm_compute; reflexivity).
  assert (Hp : payloadOf ackFrame = [0x00]) by (vm_compute; reflexivity).
  split; [exact Hl|]. split; [exact Hc|]. split; [exact Hp|].
  exact (ack_frame_completes_task Utils.getCRC16 AckCommand NakCommand
           firstTask ackFrame inFlightDevice Hl Hc Hp).
Defined.

(** C2, as stated, fails: on the ACK frame the engine clears [busy], calls
    the callback of the task in flight and keeps no listener for a later
    frame. *)
Lemma ack_frame_is_not_handshake_only :
  checkCRC Utils.getCRC16 ackFrame = true /\
  payloadOf ackFrame = [0x00] /\
  busy (ccnetRun newDevice oneInFlight) = true /\
  busy (ccnetRun newDevice (oneInFlight ++ [Data ackFrame])) = false /\
  completions (effects (ccnetRun newDevice (oneInFlight ++ [Data ackFrame])))
  = [id firstTask] /\
  dataListeners (ccnetRun newDevice (oneInFlight ++ [Data ackFrame])) = [].
Proof.
  vm_compute. repeat split.
Qed.

(** A device with one command in flight gets the frame with the zeroed
    checksum, or the device's NAK frame [02 03 06 FF BA 8D]. *)
Lemma hash_errors_share_code_witness :
  dataListeners inFlightDevice = [firstTask] /\
  checkCRC Utils.getCRC16 badFrame = false /\
  checkCRC Utils.getCRC16 nakFrame = true /\
  payloadOf nakFrame = [0xFF] /\
  (exists tail,
     effects (emitData Utils.getCRC16 AckCommand NakCommand badFrame inFlightDevice)
     = effects inFlightDevice
       ++ Write (request NakCommand [])
       :: Done firstTask (Some wrongResponseHash) None :: tail) /\
  (exists tail,
     effects (emitData Utils.getCRC16 AckCommand NakCommand nakFrame inFlightDevice)
     = effects inFlightDevice
       ++ Done firstTask (Some wrongRequestHash) None :: tail /\
     writes tail = []).
Proof.
  assert (Hl : dataListeners inFlightDevice = [firstTask])
    by (vm_compute; reflexivity).
  assert (Hb : checkCRC Utils.getCRC16 badFrame = false)
    by (vm_compute; reflexivity).
  assert (Hn : checkCRC Utils.getCRC16 nakFrame = true)
    by (vm_compute; reflexivity).
  assert (Hp : payloadOf nakFrame = [0xFF]) by (vm_compute; reflexivity).
  split; [exact Hl|]. split; [exact Hb|]. split; [exact Hn|]. split; [exact Hp|].
  split.
  - exact (proj2 (proj1 (hash_errors_share_code Utils.getCRC16 AckCommand
                           NakCommand firstTask badFrame inFlightDevice Hl) Hb)).
  - exact (proj2 (proj1 (proj2 (hash_errors_share_code Utils.getCRC16 AckCommand
                                  NakCommand firstTask nakFrame inFlightDevice Hl))
                    Hn Hp)).
Defined.

(** C7, as stated, fails: the error a failed checksum hands to the
    callback and the error a NAK frame hands to it carry one and the same
    code. *)
Lemma hash_errors_not_told_apart_by_code :
  exists e1 e2,
    errorsOf 0 (effects (ccnetRun newDevice (oneInFlight ++ [Data badFrame]))) = [e1] /\
    errorsOf 0 (effects (ccnetRun newDevice (oneInFlight ++ [Data nakFrame]))) = [e2] /\
    code e1 = code e2.
Proof.
  exists wrongResponseHash, wrongRequestHash. vm_compute. repeat split.
Qed.

(** ** The timeout *)




(** C5, the part that holds: with [busy] set, [onTick] does nothing. *)
Lemma onTick_busy (Poll : Command) (d : Device) :
  busy d = true -> onTick Poll d = d.
Proof. intros H. unfold onTick. now rewrite H. Qed.

Section Timeout.

Variable getCRC16 : Buffer.t -> Buffer.t.
Variables Ack Nak Poll : Command.


(** The period in which the timeout is due: [busy] is cleared, the
    timeout handler leaves the ['tick'] listeners, the callback is called
    with [requestTimeout] -- and the task's [handler] stays a listener
    of the parser. *)
Lemma period_fires (t : Task) (c : Z) (d : Device) :
  waiting t c d ->
  timeout t <= c + timerMs ->
  let d' := run getCRC16 Ack Nak Poll d period in
  busy d' = false /\ tickListeners d' = [] /\ dataListeners d' = [t] /\
  immediates d' = [] /\ queue d' = queue d /\
  exists tail,
    effects d' = effects d ++ Done t (Some requestTimeout) None :: tail /\
    quiet tail.
Proof.
  intros (Hb & Hi & Him & Ht & Hd & Hc) Hle d'. subst d'.
  unfold run, period. simpl. rewrite Hi.
  unfold runImmediates, emitTick. simpl. rewrite Him, Ht. simpl.
  rewrite onTick_busy by exact Hb.
  unfold timeoutHandler. simpl. rewrite Hc.
  destruct (c + timerMs >=? timeout t) eqn:E;
    [|rewrite Z.geb_leb in E; apply Z.leb_gt in E; lia].
  rewrite Ht. simpl. rewrite Nat.eqb_refl.
  change (mkException 10 "Request timeout.") with requestTimeout.
  match goal with
  | |- context [callDone t ?e ?p ?x] =>
      destruct (callDone_spec t e p x) as (tail & He & Hq & Hctl);
      destruct (callDone t e p x) as [d1 [y|]]
  end; simpl in *.
  - repeat split; try (clear - Hctl Hd; control_solve).
    exists (tail ++ [Uncaught y]). rewrite He, <- app_assoc. split; [reflexivity|].
    destruct Hq as [Hq1 Hq2]. split.
    + now rewrite completions_app, Hq1.
    + now rewrite writes_app, Hq2.
  - repeat split; try (clear - Hctl Hd; control_solve).
    exists tail. auto.
Qed.



(** Any frame makes the handler of the one listening task call the
    task's callback. *)
Lemma emitData_calls_back (t : Task) (response : Buffer.t) (d : Device) :
  dataListeners d = [t] ->
  exists l,
    effects (emitData getCRC16 Ack Nak response d) = effects d ++ l /\
    (1 <= timesDone (id t) l)%nat.
Proof.
  intros Hl. rewrite (emitData_single _ _ _ t response d Hl).
  destruct (checkCRC getCRC16 response) eqn:Hcrc.
  - rewrite handler_good_frame by assumption.
    destruct (dispatch_calls_back Ack t response
                (setDataListeners (removeListener t (dataListeners d))
                   (setTickListeners (removeListener t (tickListeners d)) d)))
      as (l & He & Hl').
    exists l. auto.
  - rewrite handler_bad_frame by assumption. rewrite settle_after_nak.
    destruct (rejected_callDone_spec t (Some wrongResponseHash) None
                (setBusy false
                   (emit (Write (request Nak []))
                      (setDataListeners (removeListener t (dataListeners d))
                         (setTickListeners (removeListener t (tickListeners d)) d)))))
      as (tail & He & _ & _).
    destruct (rejected _) as [d1 [x|]]; simpl in He.
    + eexists. rewrite He, <- app_assoc. split; [reflexivity|].
      rewrite timesDone_app, timesDone_Done. lia.
    + destruct (dispatch_calls_back Ack t response d1) as (l & He' & Hl').
      eexists. rewrite He', He, <- !app_assoc. split; [reflexivity|].
      rewrite !timesDone_app, timesDone_Done. lia.
Qed.

(** C3, the code at a failing input.  In the period in which the
    timeout of the task in flight is due, its callback is called with
    [requestTimeout] while its [handler] remains a listener of the
    parser; whatever frame comes next, the callback is called again. *)
Theorem late_frame_after_timeout_calls_back
    (t : Task) (c : Z) (d : Device) (response : Buffer.t) :
  waiting t c d ->
  timeout t <= c + timerMs ->
  let d1 := run getCRC16 Ack Nak Poll d period in
  let d2 := step getCRC16 Ack Nak Poll d1 (Data response) in
  dataListeners d1 = [t] /\
  timesDone (id t) (effects d1) = S (timesDone (id t) (effects d)) /\
  (timesDone (id t) (effects d) + 2 <= timesDone (id t) (effects d2))%nat.
Proof.
  intros Hw Hdue d1 d2.
  destruct (period_fires t c d Hw Hdue)
    as (_ & _ & Hl & _ & _ & tail & He & Hq).
  fold d1 in Hl, He.
  destruct (emitData_calls_back t response d1 Hl) as (l & He' & Hl').
  split; [exact Hl|]. split.
  - rewrite He, timesDone_app, timesDone_Done, (quiet_timesDone _ _ Hq). lia.
  - subst d2. simpl. rewrite He', He.
    rewrite !timesDone_app, timesDone_Done. lia.
Qed.

End Timeout.

(** A command with a 1000 ms timeout is sent and never answered; the
    frame arrives after the tenth period. *)
Lemma late_frame_after_timeout_calls_back_witness :
  waiting firstTask 900 almostDue /\
  timeout firstTask <= 900 + timerMs /\
  let d1 := run Utils.getCRC16 AckCommand NakCommand PollCommand almostDue period in
  let d2 := step Utils.getCRC16 AckCommand NakCommand PollCommand d1 (Data goodFrame) in
  dataListeners d1 = [firstTask] /\
  timesDone (id firstTask) (effects d1)
  = S (timesDone (id firstTask) (effects almostDue)) /\
  (timesDone (id firstTask) (effects almostDue) + 2
   <= timesDone (id firstTask) (effects d2))%nat.
Proof.
  assert (Hw : waiting firstTask 900 almostDue) by (vm_compute; repeat split).
  assert (Hdue : timeout firstTask <= 900 + timerMs) by (vm_compute; discriminate).
  split; [exact Hw|]. split; [exact Hdue|].
  exact (late_frame_after_timeout_calls_back
           Utils.getCRC16 AckCommand NakCommand PollCommand
           firstTask 900 almostDue goodFrame Hw Hdue).
Defined.

(** ** One request at a time *)

(** C5, the code at a failing input.  Three commands are executed.  The
    reply to the first, whose timeout is 100 ms, arrives between the tick
    of its first period and the immediates of that tick.  The handler
    completes the task; then [onTick] sends the second task; then the
    timeout body queued by the same tick clears [busy].  At the next tick
    the third task is sent while the second is unanswered, and its timeout
    makes it complete before the second.  The run is one that Node can
    produce ([scheduled]) and not one in which replies keep clear of that
    window ([prompt]). *)
Theorem late_reply_breaks_single_flight :
  scheduled false (lateReply ++ period ++ [Data goodFrame]) = true /\
  prompt lateReply = false /\
  busy (ccnetRun newDevice lateReply) = true /\
  awaiting (ccnetRun newDevice lateReply) = [1%nat; 2%nat] /\
  List.length (writes (effects (ccnetRun newDevice lateReply))) = 4%nat /\
  completions (effects (ccnetRun newDevice (lateReply ++ period)))
  = [0%nat; 0%nat; 2%nat] /\
  firsts [] (completions
               (effects (ccnetRun newDevice (lateReply ++ period ++ [Data goodFrame]))))
  = [0%nat; 2%nat; 1%nat].
Proof.
  vm_compute. repeat split.
Qed.

(** ** Single flight when replies are prompt *)






Lemma moved_refl (ids : list nat) (d : Device) : moved ids d d.
Proof.
  constructor; auto. exists []. rewrite app_nil_r. split; [reflexivity|].
  intros x [].
Qed.

Lemma moved_trans (ids : list nat) (d1 d2 d3 : Device) :
  moved ids d1 d2 -> moved ids d2 d3 -> moved ids d1 d3.
Proof.
  intros [Q1 N1 I1 T1 B1 (l1 & E1 & L1)] [Q2 N2 I2 T2 B2 (l2 & E2 & L2)].
  constructor; try congruence.
  - destruct B2 as [B2|B2]; [rewrite B2; exact B1 | now right].
  - exists (l1 ++ l2). rewrite E2, E1, app_assoc. split; [reflexivity|].
    rewrite completions_app. now apply incl_app.
Qed.

Lemma moved_weaken (ids ids' : list nat) (d d' : Device) :
  incl ids ids' -> moved ids d d' -> moved ids' d d'.
Proof.
  intros Hi [Q N Im T B (l & E & L)]. constructor; auto.
  exists l. split; [exact E|]. eapply incl_tran; eassumption.
Qed.

Lemma moved_cleared (ids : list nat) (d d' : Device) :
  moved ids d d' -> busy d = false -> busy d' = false.
Proof. intros [_ _ _ _ [B|B] _] H; congruence. Qed.

Lemma logged_then_moved (n : nat) (ids : list nat) (d1 d2 d3 : Device) :
  logged n d1 d2 -> moved ids d2 d3 -> logged n d1 d3.
Proof.
  intros (l1 & E1 & H1) [_ _ _ _ _ (l2 & E2 & _)].
  exists (l1 ++ l2). rewrite E2, E1, app_assoc. split; [reflexivity|].
  rewrite completions_app. apply in_or_app. now left.
Qed.

Lemma moved_then_logged (n : nat) (ids : list nat) (d1 d2 d3 : Device) :
  moved ids d1 d2 -> logged n d2 d3 -> logged n d1 d3.
Proof.
  intros [_ _ _ _ _ (l1 & E1 & _)] (l2 & E2 & H2).
  exists (l1 ++ l2). rewrite E2, E1, app_assoc. split; [reflexivity|].
  rewrite completions_app. apply in_or_app. now right.
Qed.

(** A step that calls the callback of [t] and leaves the rest alone. *)
Lemma called_moved (t : Task) e p (tail : list Effect) (d d' : Device) :
  effects d' = effects d ++ Done t e p :: tail ->
  quiet tail ->
  control d' = control d ->
  moved [id t] d d' /\ logged (id t) d d' /\
  tickListeners d' = tickListeners d /\ dataListeners d' = dataListeners d /\
  busy d' = busy d.
Proof.
  intros He [Hq _] Hc.
  assert (Hl : completions (Done t e p :: tail) = [id t])
    by (simpl; now rewrite Hq).
  repeat split; try (clear - Hc; control_solve).
  - left. clear - Hc. control_solve.
  - exists (Done t e p :: tail). split; [exact He|]. rewrite Hl. apply incl_refl.
  - exists (Done t e p :: tail). split; [exact He|]. rewrite Hl. now left.
Qed.

Lemma complete_moved (t : Task) (response : Buffer.t) (d : Device) :
  moved [id t] d (complete t response d) /\
  logged (id t) d (complete t response d) /\
  tickListeners (complete t response d) = tickListeners d /\
  dataListeners (complete t response d) = dataListeners d /\
  busy (complete t response d) = false.
Proof.
  destruct (complete_spec t response d) as (tail & He & Hq & Hc).
  destruct (called_moved t None (Some (payloadOf response)) tail
              (setBusy false d) (complete t response d) He Hq Hc)
    as ([Q N Im T B E] & Hl & Ht & Hd & Hb).
  repeat split; try assumption. now right.
Qed.

Section Steps.

Variable getCRC16 : Buffer.t -> Buffer.t.
Variables Ack Nak : Command.

(** What [dispatchResponse] does for its task. *)
Lemma dispatch_moved (t : Task) (response : Buffer.t) (d : Device) :
  moved [id t] d (fst (dispatchResponse Ack t response d)) /\
  tickListeners (fst (dispatchResponse Ack t response d)) = tickListeners d /\
  dataListeners (fst (dispatchResponse Ack t response d)) = dataListeners d /\
  match snd (dispatchResponse Ack t response d) with
  | None =>
      logged (id t) d (fst (dispatchResponse Ack t response d)) /\
      busy (fst (dispatchResponse Ack t response d)) = false
  | Some k => awaitTask k = t
  end.
Proof.
  destruct (dispatch_cases Ack t response d) as [E|[E|E]]; rewrite E; clear E.
  - simpl. destruct (complete_moved t response d) as (M & L & Ht & Hd & Hb). auto.
  - destruct (rejected_callDone_spec t (Some wrongRequestHash) None
                (setBusy false d)) as (tail & He & Hq & Hc).
    destruct (called_moved t _ _ tail (setBusy false d) _ He Hq Hc)
      as ([Q N Im T B E] & Hl & Ht & Hd & Hb).
    assert (M : moved [id t] d
                  (fst (rejected (callDone t (Some wrongRequestHash) None
                                    (setBusy false d)))))
      by (constructor; auto).
    destruct (rejected _) as [d' [x|]]; simpl in *.
    + auto.
    + destruct (complete_moved t response d') as (M' & L' & Ht' & Hd' & Hb').
      split; [eapply moved_trans; eassumption|].
      split; [congruence|]. split; [congruence|].
      split; [|exact Hb']. eapply moved_then_logged; eassumption.
  - simpl. repeat split; auto. exists [Write (request Ack [])].
    split; [reflexivity|]. intros x [].
Qed.

(** What the start of a handler does for its task. *)
Lemma handler_moved (t : Task) (response : Buffer.t) (d : Device) :
  moved [id t] d (fst (handler getCRC16 Ack Nak t response d)) /\
  tickListeners (fst (handler getCRC16 Ack Nak t response d))
  = removeListener t (tickListeners d) /\
  dataListeners (fst (handler getCRC16 Ack Nak t response d))
  = removeListener t (dataListeners d) /\
  match snd (handler getCRC16 Ack Nak t response d) with
  | None =>
      logged (id t) d (fst (handler getCRC16 Ack Nak t response d)) /\
      busy (fst (handler getCRC16 Ack Nak t response d)) = false
  | Some k => awaitTask k = t
  end.
Proof.
  destruct (checkCRC getCRC16 response) eqn:Hcrc.
  - rewrite handler_good_frame by assumption.
    destruct (dispatch_moved t response (strip t d)) as ([Q N Im T B E] & Ht & Hd & Hk).
    fold (strip t d).
    split; [constructor; assumption|]. split; [exact Ht|]. split; [exact Hd|].
    destruct (snd (dispatchResponse Ack t response (strip t d))); [exact Hk|].
    destruct Hk as [(l & El & Hl) Hb]. split; [|exact Hb]. exists l. auto.
  - rewrite handler_bad_frame by assumption. simpl.
    repeat split; auto. exists [Write (request Nak [])].
    split; [reflexivity|]. intros x [].
Qed.

(** What a resumed handler does for its task. *)
Lemma resume_moved (k : Await) (d : Device) :
  moved [id (awaitTask k)] d (fst (resume Ack k d)) /\
  tickListeners (fst (resume Ack k d)) = tickListeners d /\
  dataListeners (fst (resume Ack k d)) = dataListeners d /\
  logged (id (awaitTask k)) d (fst (resume Ack k d)) /\
  busy (fst (resume Ack k d)) = false /\
  match snd (resume Ack k d) with
  | None => True
  | Some k' => awaitTask k' = awaitTask k
  end.
Proof.
  destruct k as [t response|t response]; simpl.
  - change (mkException 11 "Wrong response data hash.") with wrongResponseHash.
    destruct (rejected_callDone_spec t (Some wrongResponseHash) None
                (setBusy false d)) as (tail & He & Hq & Hc).
    destruct (called_moved t _ _ tail (setBusy false d) _ He Hq Hc)
      as ([Q N Im T B E] & Hl & Ht & Hd & Hb).
    assert (M : moved [id t] d
                  (fst (rejected (callDone t (Some wrongResponseHash) None
                                    (setBusy false d)))))
      by (constructor; auto).
    assert (L : logged (id t) d
                  (fst (rejected (callDone t (Some wrongResponseHash) None
                                    (setBusy false d)))))
      by exact Hl.
    destruct (rejected _) as [d' [x|]]; simpl in *.
    + auto 10.
    + destruct (dispatch_moved t response d') as (M' & Ht' & Hd' & Hk).
      split; [eapply moved_trans; eassumption|].
      split; [congruence|]. split; [congruence|].
      split; [eapply logged_then_moved; eassumption|].
      split; [eapply moved_cleared; eassumption|].
      destruct (snd (dispatchResponse Ack t response d')); [exact Hk|constructor].
  - destruct (complete_moved t response d) as (M & L & Ht & Hd & Hb). auto 10.
Qed.

End Steps.

(** *** Rounds of handlers *)

Lemma round_acc {A : Type} (f : A -> Device -> Device * option Await)
    (xs : list A) : forall (d : Device) (ks0 : list Await),
  fold_left
    (fun (acc : Device * list Await) (x : A) =>
       let '(d', k) := f x (fst acc) in
       (d', snd acc ++ match k with Some a => [a] | None => [] end))
    xs (d, ks0)
  = (fst (round f xs d), ks0 ++ snd (round f xs d)).
Proof.
  unfold round. induction xs as [|x xs IH]; intros d ks0; simpl.
  - now rewrite app_nil_r.
  - destruct (f x d) as [d1 k]. simpl.
    rewrite (IH d1 (ks0 ++ _)), (IH d1 (match k with Some a => [a] | None => [] end)).
    simpl. now rewrite app_assoc.
Qed.

Lemma round_cons {A : Type} (f : A -> Device -> Device * option Await)
    (x : A) (xs : list A) (d : Device) :
  round f (x :: xs) d
  = (fst (round f xs (fst (f x d))),
     match snd (f x d) with Some a => [a] | None => [] end
     ++ snd (round f xs (fst (f x d)))).
Proof.
  unfold round at 1. simpl. destruct (f x d) as [d1 k]. simpl.
  apply round_acc.
Qed.

Lemma removeListener_incl (t : Task) (l : list Task) :
  incl (removeListener t l) l.
Proof.
  induction l as [|x l IH]; simpl; [apply incl_refl|].
  destruct (Nat.eqb (id x) (id t)).
  - apply incl_tl, incl_refl.
  - intros y [->|Hy]; [now left | right; now apply IH].
Qed.

Section Rounds.

Variable getCRC16 : Buffer.t -> Buffer.t.
Variables Ack Nak : Command.
Variable response : Buffer.t.

Lemma round_handler_moved (L : list Task) : forall d : Device,
  let r := round (fun t => handler getCRC16 Ack Nak t response) L d in
  moved (map id L) d (fst r) /\
  tickListeners (fst r)
  = fold_left (fun l t => removeListener t l) L (tickListeners d) /\
  incl (dataListeners (fst r)) (dataListeners d) /\
  (forall k, In k (snd r) -> In (awaitTask k) L) /\
  (forall t, In t L ->
     (logged (id t) d (fst r) /\ busy (fst r) = false) \/
     exists k, In k (snd r) /\ awaitTask k = t).
Proof.
  induction L as [|t L IH]; intros d r; subst r.
  - simpl. split; [apply moved_refl|]. split; [reflexivity|].
    split; [apply incl_refl|]. split; intros ? [].
  - rewrite round_cons. simpl fst. simpl snd.
    destruct (handler_moved getCRC16 Ack Nak t response d) as (M & Ht & Hd & Hk).
    destruct (IH (fst (handler getCRC16 Ack Nak t response d)))
      as (M' & Ht' & Hd' & Hks & Hall).
    split.
    { eapply moved_trans.
      - eapply moved_weaken; [|exact M]. intros x [<-|[]]. now left.
      - eapply moved_weaken; [|exact M']. simpl. apply incl_tl, incl_refl. }
    split; [simpl; rewrite Ht', Ht; reflexivity|].
    split.
    { eapply incl_tran; [exact Hd'|]. rewrite Hd. apply removeListener_incl. }
    split.
    { intros k Hin. apply in_app_or in Hin as [Hin|Hin].
      - destruct (snd (handler getCRC16 Ack Nak t response d)) as [k0|];
          [|destruct Hin].
        destruct Hin as [<-|[]]. left. now symmetry.
      - right. now apply Hks. }
    intros t' [<-|Hin].
    + destruct (snd (handler getCRC16 Ack Nak t response d)) as [k0|].
      * right. exists k0. split; [apply in_or_app; left; now left | exact Hk].
      * left. destruct Hk as [Hl Hb]. split.
        -- eapply logged_then_moved; eassumption.
        -- eapply moved_cleared; eassumption.
    + destruct (Hall t' Hin) as [[Hl Hb]|(k & Hk' & Ek)].
      * left. split; [|exact Hb]. eapply moved_then_logged; eassumption.
      * right. exists k. split; [apply in_or_app; now right | exact Ek].
Qed.

Lemma round_resume_moved (ks : list Await) : forall d : Device,
  let r := round (resume Ack) ks d in
  moved (map (fun k => id (awaitTask k)) ks) d (fst r) /\
  tickListeners (fst r) = tickListeners d /\
  dataListeners (fst r) = dataListeners d /\
  (forall k', In k' (snd r) -> exists k, In k ks /\ awaitTask k' = awaitTask k) /\
  (forall k, In k ks -> logged (id (awaitTask k)) d (fst r)) /\
  (ks <> [] -> busy (fst r) = false).
Proof.
  induction ks as [|k ks IH]; intros d r; subst r.
  - simpl. split; [apply moved_refl|]. repeat split; try intros ? []; congruence.
  - rewrite round_cons. simpl fst. simpl snd.
    destruct (resume_moved Ack k d) as (M & Ht & Hd & Hl & Hb & Hk).
    destruct (IH (fst (resume Ack k d))) as (M' & Ht' & Hd' & Hks & Hall & Hne).
    split.
    { eapply moved_trans.
      - eapply moved_weaken; [|exact M]. intros x [<-|[]]. now left.
      - eapply moved_weaken; [|exact M']. simpl. apply incl_tl, incl_refl. }
    split; [congruence|]. split; [congruence|].
    split.
    { intros k' Hin. apply in_app_or in Hin as [Hin|Hin].
      - destruct (snd (resume Ack k d)) as [k0|]; [|destruct Hin].
        destruct Hin as [<-|[]]. exists k. split; [now left | exact Hk].
      - destruct (Hks k' Hin) as (k0 & Hk0 & Ek0).
        exists k0. split; [now right | exact Ek0]. }
    split.
    { intros k0 [<-|Hin].
      - eapply logged_then_moved; eassumption.
      - eapply moved_then_logged; [exact M|]. now apply Hall. }
    intros _. eapply moved_cleared; eassumption.
Qed.

(** A frame, whatever handlers listen: the callback of each of their
    tasks is called and no other; [busy] ends cleared if any handler
    listened; no listener is added. *)
Lemma emitData_moved (d : Device) :
  let d' := emitData getCRC16 Ack Nak response d in
  moved (map id (dataListeners d)) d d' /\
  tickListeners d'
  = fold_left (fun l t => removeListener t l) (dataListeners d) (tickListeners d) /\
  incl (dataListeners d') (dataListeners d) /\
  (forall t, In t (dataListeners d) -> logged (id t) d d') /\
  (dataListeners d <> [] -> busy d' = false).
Proof.
  intros d'. subst d'. unfold emitData.
  pose proof (round_handler_moved (dataListeners d) d) as H1. simpl in H1.
  destruct (round (fun t => handler getCRC16 Ack Nak t response) (dataListeners d) d)
    as [d1 k1]. simpl in H1. destruct H1 as (M1 & T1 & D1 & K1 & A1).
  pose proof (round_resume_moved k1 d1) as H2. simpl in H2.
  destruct (round (resume Ack) k1 d1) as [d2 k2]. simpl in H2.
  destruct H2 as (M2 & T2 & D2 & K2 & A2 & N2).
  pose proof (round_resume_moved k2 d2) as H3. simpl in H3.
  destruct (round (resume Ack) k2 d2) as [d3 k3]. simpl in H3. simpl.
  destruct H3 as (M3 & T3 & D3 & K3 & A3 & N3).
  assert (I1 : incl (map (fun k => id (awaitTask k)) k1) (map id (dataListeners d))).
  { intros x Hx. apply in_map_iff in Hx as (k & <- & Hk).
    apply in_map. now apply K1. }
  assert (I2 : incl (map (fun k => id (awaitTask k)) k2) (map id (dataListeners d))).
  { intros x Hx. apply in_map_iff in Hx as (k & <- & Hk).
    destruct (K2 k Hk) as (k0 & Hk0 & ->). apply in_map. now apply K1. }
  assert (M12 : moved (map id (dataListeners d)) d d2).
  { eapply moved_trans; [exact M1|]. exact (moved_weaken _ _ _ _ I1 M2). }
  assert (M23 : moved (map id (dataListeners d)) d2 d3).
  { exact (moved_weaken _ _ _ _ I2 M3). }
  split; [eapply moved_trans; eassumption|].
  split; [congruence|].
  split; [rewrite D3, D2; exact D1|].
  split.
  - intros t Ht. destruct (A1 t Ht) as [[Hl Hb]|(k & Hk & <-)].
    + eapply logged_then_moved; [|exact M23].
      eapply logged_then_moved; [exact Hl|]. exact (moved_weaken _ _ _ _ I1 M2).
    + eapply logged_then_moved; [|exact M23].
      eapply moved_then_logged; [exact M1|]. now apply A2.
  - intros Hne. destruct (dataListeners d) as [|t L] eqn:EL; [congruence|].
    destruct (A1 t (or_introl eq_refl)) as [[Hl Hb]|(k & Hk & Ek)].
    + eapply moved_cleared; [exact M23|]. eapply moved_cleared; [exact M2|exact Hb].
    + eapply moved_cleared; [exact M3|]. apply N2. intros ->. destruct Hk.
Qed.

End Rounds.

(** *** The invariant *)




Lemma seq_head (a m x : nat) (l : list nat) :
  x :: l = seq a m -> x = a /\ l = seq (S a) (m - 1).
Proof.
  destruct m as [|m]; simpl; [discriminate|].
  intros H. injection H as -> ->. rewrite Nat.sub_0_r. auto.
Qed.











Section Frames.

Variable getCRC16 : Buffer.t -> Buffer.t.
Variables Ack Nak : Command.


Variable Poll : Command.



End Frames.

(** ** Polling *)

(** The same late reply leaves two [Poll] tasks unanswered at once. *)
Lemma two_polls_in_flight :
  scheduled false twoPolls = true /\
  awaiting (ccnetRun newDevice twoPolls) = [2%nat; 3%nat] /\
  map done (skipn 1 (dataListeners (ccnetRun newDevice twoPolls)))
  = [PollSink; PollSink].
Proof.
  vm_compute. repeat split.
Qed.

(** C6, as amended.  When [onTick] runs with [busy] clear and the queue
    empty, it puts one [Poll] task with a timeout of 1000 ms in the queue
    and sends nothing; the next run of [onTick] takes that task from the
    queue, sets [busy], writes the task's bytes and registers its two
    listeners. *)
Theorem idle_tick_queues_one_poll (Poll : Command) (d : Device) :
  busy d = false ->
  queue d = [] ->
  let poll := pollTask Poll (nextId d) in
  let d1 := onTick Poll d in
  let d2 := onTick Poll d1 in
  timeout poll = 1000 /\
  queue d1 = [poll] /\ busy d1 = false /\ effects d1 = effects d /\
  dataListeners d1 = dataListeners d /\ tickListeners d1 = tickListeners d /\
  queue d2 = [] /\ busy d2 = true /\
  effects d2 = effects d ++ [Write (request Poll [])] /\
  dataListeners d2 = dataListeners d ++ [poll] /\
  tickListeners d2 = tickListeners d ++ [poll].
Proof.
  intros Hb Hq poll d1 d2. subst poll d1 d2.
  destruct d; simpl in Hb, Hq; subst.
  repeat split.
Qed.

Lemma idle_tick_queues_one_poll_witness :
  busy openDevice = false /\
  queue openDevice = [] /\
  let poll := pollTask PollCommand (nextId openDevice) in
  let d1 := onTick PollCommand openDevice in
  let d2 := onTick PollCommand d1 in
  timeout poll = 1000 /\
  queue d1 = [poll] /\ busy d1 = false /\ effects d1 = effects openDevice /\
  dataListeners d1 = dataListeners openDevice /\
  tickListeners d1 = tickListeners openDevice /\
  queue d2 = [] /\ busy d2 = true /\
  effects d2 = effects openDevice ++ [Write (request PollCommand [])] /\
  dataListeners d2 = dataListeners openDevice ++ [poll] /\
  tickListeners d2 = tickListeners openDevice ++ [poll].
Proof.
  assert (Hb : busy openDevice = false) by (vm_compute; reflexivity).
  assert (Hq : queue openDevice = []) by (vm_compute; reflexivity).
  split; [exact Hb|]. split; [exact Hq|].
  exact (idle_tick_queues_one_poll PollCommand openDevice Hb Hq).
Defined.

(** C6, as stated, fails: in the period in which the engine is idle with
    an empty queue, no [Poll] is sent; the task only joins the queue. *)
Lemma idle_tick_sends_no_poll :
  busy openDevice = false /\ queue openDevice = [] /\
  writes (effects (ccnetRun openDevice period)) = [] /\
  busy (ccnetRun openDevice period) = false /\
  dataListeners (ccnetRun openDevice period) = [] /\
  queue (ccnetRun openDevice period) = [pollTask PollCommand 0].
Proof.
  vm_compute. repeat split.
Qed.

(** ** Disconnecting *)

(** C8, as amended.  [disconnect] on an open port closes the port and
    stops the operating timer, so that the timer emits no further tick.
    It calls no callback: the queue, the [busy] flag and the listeners of
    the task in flight stay as they are. *)
Theorem disconnect_stops_timer_only
    (getCRC16 : Buffer.t -> Buffer.t) (Ack Nak Poll : Command) (d : Device) :
  isOpen d = true ->
  let d' := disconnect d in
  isOpen d' = false /\ timerInterval d' = false /\
  step getCRC16 Ack Nak Poll d' Interval = d' /\
  effects d' = effects d /\ queue d' = queue d /\ busy d' = busy d /\
  dataListeners d' = dataListeners d /\ tickListeners d' = tickListeners d.
Proof.
  intros Ho d'. subst d'. unfold disconnect, close. rewrite Ho.
  repeat split.
Qed.

Lemma disconnect_stops_timer_only_witness :
  isOpen midway = true /\
  let d' := disconnect midway in
  isOpen d' = false /\ timerInterval d' = false /\
  step Utils.getCRC16 AckCommand NakCommand PollCommand d' Interval = d' /\
  effects d' = effects midway /\ queue d' = queue midway /\
  busy d' = busy midway /\
  dataListeners d' = dataListeners midway /\
  tickListeners d' = tickListeners midway.
Proof.
  assert (Ho : isOpen midway = true) by (vm_compute; reflexivity).
  split; [exact Ho|].
  exact (disconnect_stops_timer_only
           Utils.getCRC16 AckCommand NakCommand PollCommand midway Ho).
Defined.

(** C8, as stated, fails: after [disconnect] the task in flight and the
    task in the queue are where they were, and no callback has been
    called, then or twenty timer periods later. *)
Lemma disconnect_fails_no_task :
  awaiting (ccnetRun newDevice closedMidway) = [0%nat] /\
  map id (queue (ccnetRun newDevice closedMidway)) = [1%nat] /\
  completions (effects (ccnetRun newDevice closedMidway)) = [] /\
  completions (effects (ccnetRun newDevice (closedMidway ++ periods 20))) = [].
Proof.
  vm_compute. repeat split.
Qed.

(** ** Device states *)

(** C9, as amended.  The table [DeviceStatus] is fixed: [UNIT_DISABLED]
    holds the code ["19"], [REJECTING_DUE_TO_INSERTION] the code of the
    two bytes [1c 60], and every code is held by one member only.
    [onStatus] looks nothing up: whatever the status, in the table or not,
    it leaves the device as it is and raises nothing. *)
Theorem status_table_and_onStatus :
  DeviceStatus.ofCode "19" = Some DeviceStatus.UNIT_DISABLED /\
  DeviceStatus.ofCode (Buffer.toHex [0x1c; 0x60])
  = Some DeviceStatus.REJECTING_DUE_TO_INSERTION /\
  (forall s, DeviceStatus.ofCode (DeviceStatus.code s) = Some s) /\
  (forall s, In s DeviceStatus.all) /\
  (forall status d, onStatus status d = d).
Proof.
  split; [reflexivity|]. split; [reflexivity|].
  split; [intros s; destruct s; reflexivity|].
  split; [intros s; destruct s; simpl; tauto|].
  reflexivity.
Qed.

(** C9, as stated, fails: the code [99] is in no member of the table, and
    a [Poll] answered with that status ends like any other, with the
    call of [onStatus] and no error. *)
Lemma unmapped_status_is_ignored :
  DeviceStatus.ofCode (Buffer.toHex [0x99]) = None /\
  effects (ccnetRun newDevice (SerialOpen :: periods 2 ++ [Data (assemble [0x99])]))
  = [Write (assemble [0x33]);
     Write (assemble [0x00]);
     Done (pollTask PollCommand 0) None (Some [0x99]);
     OnStatus (Some [0x99])] /\
  control (ccnetRun newDevice (SerialOpen :: periods 2 ++ [Data (assemble [0x99])]))
  = control (ccnetRun newDevice (SerialOpen :: periods 2 ++ [Data (assemble [0x19])])).
Proof.
  vm_compute. repeat split.
Qed.

(** * More of the engine *)

(** ** The log only grows, and promises settle inside callbacks *)

Lemma settlers_app (l1 l2 : list Effect) :
  settlers (l1 ++ l2) = settlers l1 ++ settlers l2.
Proof.
  induction l1 as [|e l1 IH]; simpl; [reflexivity|].
  destruct e; simpl; now rewrite IH.
Qed.

Lemma settlement_first (n : nat) (l1 l2 : list Effect) x :
  settlement n l1 = Some x -> settlement n (l1 ++ l2) = Some x.
Proof.
  induction l1 as [|e l1 IH]; simpl; [discriminate|].
  destruct e; auto; destruct (Nat.eqb task n); auto.
Qed.

Lemma settlement_absent (n : nat) (l1 l2 : list Effect) :
  ~ In n (settlers l2) -> settlement n (l1 ++ l2) = settlement n l1.
Proof.
  intros H. induction l1 as [|e l1 IH]; simpl.
  - induction l2 as [|e l2 IH2]; simpl; [reflexivity|].
    destruct e; simpl in H; try (apply IH2; exact H).
    + destruct (Nat.eqb task n) eqn:E.
      * apply Nat.eqb_eq in E. exfalso. apply H. now left.
      * apply IH2. intros Hin. apply H. now right.
    + destruct (Nat.eqb task n) eqn:E.
      * apply Nat.eqb_eq in E. exfalso. apply H. now left.
      * apply IH2. intros Hin. apply H. now right.
  - destruct e; auto; destruct (Nat.eqb task n); auto.
Qed.

Lemma timesDone_absent (n : nat) (l : list Effect) :
  ~ In n (completions l) -> timesDone n l = 0%nat.
Proof. intros H. unfold timesDone. now apply count_occ_not_In. Qed.

Lemma orderly_refl (d : Device) : orderly d d.
Proof. exists []. rewrite app_nil_r. split; [reflexivity | intros x []]. Qed.

Lemma orderly_trans (d1 d2 d3 : Device) :
  orderly d1 d2 -> orderly d2 d3 -> orderly d1 d3.
Proof.
  intros (l1 & E1 & H1) (l2 & E2 & H2). exists (l1 ++ l2).
  rewrite E2, E1, app_assoc. split; [reflexivity|].
  rewrite settlers_app, completions_app.
  apply incl_app; [apply incl_appl | apply incl_appr]; assumption.
Qed.

(** A step that only sets fields of the device, or writes to the port. *)
Lemma orderly_same (d d' : Device) : effects d' = effects d -> orderly d d'.
Proof.
  intros E. exists []. rewrite app_nil_r. split; [exact E | intros x []].
Qed.

Lemma orderly_write (b : Buffer.t) (d : Device) : orderly d (emit (Write b) d).
Proof. exists [Write b]. split; [reflexivity | intros x []]. Qed.

Lemma callDone_orderly (t : Task) e p (d : Device) :
  orderly d (fst (callDone t e p d)).
Proof.
  unfold callDone, orderly. destruct (done t) as [command|].
  - destruct e as [x|]; destruct (response command p) as [v|y]; simpl.
    + exists [Done t (Some x) p; Reject (id t) x; Resolve (id t) v].
      rewrite <- !app_assoc. split; [reflexivity|].
      simpl. intros z [<-|[<-|[]]]; now left.
    + exists [Done t (Some x) p; Reject (id t) x].
      rewrite <- !app_assoc. split; [reflexivity|].
      simpl. intros z [<-|[]]; now left.
    + exists [Done t None p; Resolve (id t) v].
      rewrite <- !app_assoc. split; [reflexivity|].
      simpl. intros z [<-|[]]; now left.
    + exists [Done t None p]. split; [reflexivity | intros z []].
  - destruct e as [x|]; simpl.
    + exists [Done t (Some x) p]. split; [reflexivity | intros z []].
    + exists [Done t None p; OnStatus p].
      rewrite <- !app_assoc. split; [reflexivity | intros z []].
Qed.

Lemma rejected_orderly (r : Device * option Exception) :
  orderly (fst r) (fst (rejected r)).
Proof.
  destruct r as [d [x|]]; simpl; [|apply orderly_refl].
  exists [UnhandledRejection x]. split; [reflexivity | intros z []].
Qed.

Lemma complete_orderly (t : Task) (response : Buffer.t) (d : Device) :
  orderly d (complete t response d).
Proof.
  unfold complete.
  eapply orderly_trans; [|apply rejected_orderly].
  eapply orderly_trans; [|apply callDone_orderly].
  now apply orderly_same.
Qed.

Lemma called_then_rejected_orderly (t : Task) e p (d : Device) :
  orderly d (fst (rejected (callDone t e p (setBusy false d)))).
Proof.
  eapply orderly_trans; [|apply rejected_orderly].
  eapply orderly_trans; [|apply callDone_orderly].
  now apply orderly_same.
Qed.

Section OrderlySteps.

Variable getCRC16 : Buffer.t -> Buffer.t.
Variables Ack Nak Poll : Command.

Lemma dispatch_orderly (t : Task) (response : Buffer.t) (d : Device) :
  orderly d (fst (dispatchResponse Ack t response d)).
Proof.
  destruct (dispatch_cases Ack t response d) as [E|[E|E]]; rewrite E; clear E.
  - apply complete_orderly.
  - pose proof (called_then_rejected_orderly t (Some wrongRequestHash) None d) as H.
    destruct (rejected _) as [d' [x|]]; simpl in *; [exact H|].
    eapply orderly_trans; [exact H | apply complete_orderly].
  - apply orderly_write.
Qed.

Lemma handler_orderly (t : Task) (response : Buffer.t) (d : Device) :
  orderly d (fst (handler getCRC16 Ack Nak t response d)).
Proof.
  destruct (checkCRC getCRC16 response) eqn:Hcrc.
  - rewrite handler_good_frame by assumption.
    eapply orderly_trans; [|apply dispatch_orderly]. now apply orderly_same.
  - rewrite handler_bad_frame by assumption. simpl.
    exists [Write (request Nak [])]. split; [reflexivity | intros z []].
Qed.

Lemma resume_orderly (k : Await) (d : Device) :
  orderly d (fst (resume Ack k d)).
Proof.
  destruct k as [t response|t response]; simpl.
  - change (mkException 11 "Wrong response data hash.") with wrongResponseHash.
    pose proof (called_then_rejected_orderly t (Some wrongResponseHash) None d) as H.
    destruct (rejected _) as [d' [x|]]; simpl in *; [exact H|].
    eapply orderly_trans; [exact H | apply dispatch_orderly].
  - apply complete_orderly.
Qed.

(** A relation that every step of a round keeps holds across the round. *)
Lemma round_keeps {A : Type} (R : Device -> Device -> Prop)
    (f : A -> Device -> Device * option Await) :
  (forall d, R d d) ->
  (forall a b c, R a b -> R b c -> R a c) ->
  (forall x d, R d (fst (f x d))) ->
  forall xs d, R d (fst (round f xs d)).
Proof.
  intros Hr Ht Hf. induction xs as [|x xs IH]; intros d.
  - apply Hr.
  - rewrite round_cons. simpl. eapply Ht; [apply Hf | apply IH].
Qed.

Lemma emitData_orderly (response : Buffer.t) (d : Device) :
  orderly d (emitData getCRC16 Ack Nak response d).
Proof.
  unfold emitData.
  pose proof (round_keeps orderly (fun t => handler getCRC16 Ack Nak t response)
                orderly_refl orderly_trans
                (fun t d => handler_orderly t response d) (dataListeners d) d) as H1.
  destruct (round _ (dataListeners d) d) as [d1 k1]. simpl in H1.
  pose proof (round_keeps orderly (resume Ack) orderly_refl orderly_trans
                resume_orderly k1 d1) as H2.
  destruct (round (resume Ack) k1 d1) as [d2 k2]. simpl in H2.
  pose proof (round_keeps orderly (resume Ack) orderly_refl orderly_trans
                resume_orderly k2 d2) as H3.
  eapply orderly_trans; [exact H1|]. eapply orderly_trans; [exact H2 | exact H3].
Qed.

Lemma timeoutHandler_orderly (t : Task) (d : Device) :
  orderly d (timeoutHandler t d).
Proof.
  unfold timeoutHandler.
  destruct (readCounter (timeoutCounter d) (id t) + timerMs >=? timeout t);
    [|now apply orderly_same].
  match goal with
  | |- context [callDone t ?e ?p ?x] =>
      pose proof (callDone_orderly t e p x) as H;
      destruct (callDone t e p x) as [d1 [y|]]
  end; simpl in H.
  - eapply orderly_trans; [|exists [Uncaught y]; split; [reflexivity | intros z []]].
    eapply orderly_trans; [|exact H]. now apply orderly_same.
  - eapply orderly_trans; [|exact H]. now apply orderly_same.
Qed.

Lemma onTick_orderly (d : Device) : orderly d (onTick Poll d).
Proof.
  unfold onTick. destruct (busy d); [apply orderly_refl|].
  destruct (queue d) as [|task rest]; [now apply orderly_same|].
  destruct (timeout task =? 0); exists [Write (data task)];
    (split; [reflexivity | intros z []]).
Qed.

Lemma runImmediates_orderly (d : Device) : orderly d (runImmediates Poll d).
Proof.
  unfold runImmediates.
  assert (H : forall l d0, orderly d0 (fold_left (runImmediate Poll) l d0)).
  { induction l as [|i l IH]; intros d0; simpl; [apply orderly_refl|].
    eapply orderly_trans; [|apply IH].
    destruct i; [apply onTick_orderly | apply timeoutHandler_orderly]. }
  eapply orderly_trans; [|apply H]. now apply orderly_same.
Qed.

Lemma step_orderly (d : Device) (e : Event) :
  orderly d (step getCRC16 Ack Nak Poll d e).
Proof.
  destruct e; simpl.
  - now apply orderly_same.
  - destruct (timerInterval d); [now apply orderly_same | apply orderly_refl].
  - apply runImmediates_orderly.
  - apply emitData_orderly.
  - now apply orderly_same.
  - now apply orderly_same.
  - unfold disconnect, close. destruct (isOpen d);
      [now apply orderly_same | apply orderly_refl].
Qed.

Lemma run_orderly (es : list Event) : forall d : Device,
  orderly d (run getCRC16 Ack Nak Poll d es).
Proof.
  induction es as [|e es IH]; intros d; [apply orderly_refl|].
  simpl. eapply orderly_trans; [apply step_orderly | apply IH].
Qed.

(** What has settled stays settled, whatever the device does next. *)
Lemma settlement_kept (n : nat) (es : list Event) (d : Device) x :
  settlement n (effects d) = Some x ->
  settlement n (effects (run getCRC16 Ack Nak Poll d es)) = Some x.
Proof.
  intros H. destruct (run_orderly es d) as (l & E & _). rewrite E.
  now apply settlement_first.
Qed.

End OrderlySteps.

(** ** Tasks the device has let go *)

Lemma untouched_refl (n : nat) (d : Device) : untouched n d d.
Proof. exists []. rewrite app_nil_r. repeat split; intros []. Qed.

Lemma untouched_trans (n : nat) (d1 d2 d3 : Device) :
  untouched n d1 d2 -> untouched n d2 d3 -> untouched n d1 d3.
Proof.
  intros (l1 & E1 & C1 & S1) (l2 & E2 & C2 & S2). exists (l1 ++ l2).
  rewrite E2, E1, app_assoc. split; [reflexivity|].
  rewrite completions_app, settlers_app.
  split; intros H; apply in_app_or in H as [H|H]; auto.
Qed.

Lemma untouched_same (n : nat) (d d' : Device) :
  effects d' = effects d -> untouched n d d'.
Proof.
  intros E. exists []. rewrite app_nil_r. repeat split; [exact E | |]; intros [].
Qed.

Lemma untouched_timesDone (n : nat) (d d' : Device) :
  untouched n d d' -> timesDone n (effects d') = timesDone n (effects d).
Proof.
  intros (l & E & C & _). rewrite E, timesDone_app, (timesDone_absent n l C). lia.
Qed.

Lemma untouched_settlement (n : nat) (d d' : Device) :
  untouched n d d' -> settlement n (effects d') = settlement n (effects d).
Proof. intros (l & E & _ & S). rewrite E. now apply settlement_absent. Qed.

(** Callbacks called for the tasks [ids] only leave every other task
    untouched. *)
Lemma orderly_untouched (n : nat) (ids : list nat) (d d' : Device) :
  orderly d d' ->
  (exists l, effects d' = effects d ++ l /\ incl (completions l) ids) ->
  ~ In n ids ->
  untouched n d d'.
Proof.
  intros (l & E & S) (l' & E' & C) Hn.
  rewrite E in E'. apply app_inv_head in E'. subst l'.
  exists l. split; [exact E|]. split; intros H; apply Hn, C; [|apply S]; exact H.
Qed.

Lemma removeListener_ids (t : Task) (l : list Task) :
  incl (map id (removeListener t l)) (map id l).
Proof. apply incl_map, removeListener_incl. Qed.

Lemma remove_all_incl (L l0 : list Task) :
  incl (fold_left (fun l t => removeListener t l) L l0) l0.
Proof.
  revert l0. induction L as [|t L IH]; intros l0; simpl; [apply incl_refl|].
  eapply incl_tran; [apply IH | apply removeListener_incl].
Qed.

Lemma immediateIds_app (l1 l2 : list Immediate) :
  immediateIds (l1 ++ l2) = immediateIds l1 ++ immediateIds l2.
Proof.
  induction l1 as [|i l1 IH]; simpl; [reflexivity|].
  destruct i; simpl; now rewrite IH.
Qed.

Lemma immediateIds_timeouts (l : list Task) :
  immediateIds (map RunTimeout l) = map id l.
Proof. induction l as [|t l IH]; simpl; [reflexivity | now rewrite IH]. Qed.

Section Forgotten.

Variable getCRC16 : Buffer.t -> Buffer.t.
Variables Ack Nak Poll : Command.
Variable n : nat.

Lemma execute_forgotten (command : Command) (params : Buffer.t) (tmo : Z)
    (d : Device) :
  forgotten n d ->
  forgotten n (execute command params tmo d) /\
  untouched n d (execute command params tmo d).
Proof.
  intros (Hn & Hq & Ht & Hd & Hi). split; [|now apply untouched_same].
  unfold forgotten, execute. simpl. repeat split; auto.
  rewrite map_app. simpl. intros H. apply in_app_or in H as [H|[H|[]]]; [auto|lia].
Qed.

Lemma onTick_forgotten (d : Device) :
  forgotten n d ->
  forgotten n (onTick Poll d) /\ untouched n d (onTick Poll d).
Proof.
  intros (Hn & Hq & Ht & Hd & Hi). unfold onTick.
  destruct (busy d); [split; [repeat split; auto | apply untouched_refl]|].
  destruct (queue d) as [|task rest] eqn:Eq.
  - split; [|now apply untouched_same].
    unfold forgotten. simpl. repeat split; auto.
    intros [H|[]]. lia.
  - simpl in Hq.
    assert (Hu : forall d', effects d' = effects d ++ [Write (data task)] ->
                       untouched n d d').
    { intros d' E. exists [Write (data task)]. split; [exact E|]. split; intros []. }
    destruct (timeout task =? 0); (split; [|now apply Hu]);
      unfold forgotten; simpl; repeat split; auto;
      rewrite map_app; simpl; intros H; apply in_app_or in H as [H|[H|[]]]; auto.
Qed.

Lemma timeoutHandler_forgotten (t : Task) (d : Device) :
  id t <> n ->
  forgotten n d ->
  forgotten n (timeoutHandler t d) /\ untouched n d (timeoutHandler t d).
Proof.
  intros Hne (Hn & Hq & Ht & Hd & Hi).
  split.
  - unfold timeoutHandler.
    destruct (readCounter (timeoutCounter d) (id t) + timerMs >=? timeout t);
      [|repeat split; auto].
    match goal with
    | |- context [callDone t ?e ?p ?x] =>
        destruct (callDone_spec t e p x) as (tail & _ & _ & Hc);
        destruct (callDone t e p x) as [d1 thrown]
    end.
    simpl in Hc.
    assert (Hf : forgotten n d1).
    { unfold forgotten.
      replace (nextId d1) with (nextId d) by (clear - Hc; control_solve).
      replace (queue d1) with (queue d) by (clear - Hc; control_solve).
      replace (dataListeners d1) with (dataListeners d) by (clear - Hc; control_solve).
      replace (immediates d1) with (immediates d) by (clear - Hc; control_solve).
      replace (tickListeners d1) with (removeListener t (tickListeners d))
        by (clear - Hc; control_solve).
      repeat split; auto. intros H. now apply removeListener_ids in H. }
    destruct thrown; [|exact Hf]. exact Hf.
  - apply orderly_untouched with [id t].
    + apply timeoutHandler_orderly.
    + unfold timeoutHandler.
      destruct (readCounter (timeoutCounter d) (id t) + timerMs >=? timeout t).
      * match goal with
        | |- context [callDone t ?e ?p ?x] =>
            destruct (callDone_spec t e p x) as (tail & He & [Hq1 _] & _);
            destruct (callDone t e p x) as [d1 thrown]
        end.
        simpl in He.
        destruct thrown as [y|]; simpl.
        -- exists (Done t (Some (mkException 10 "Request timeout.")) None
                     :: tail ++ [Uncaught y]).
           rewrite He, <- app_assoc. split; [reflexivity|].
           simpl. rewrite completions_app, Hq1. simpl. apply incl_refl.
        -- exists (Done t (Some (mkException 10 "Request timeout.")) None :: tail).
           split; [exact He|]. simpl. rewrite Hq1. apply incl_refl.
      * exists []. rewrite app_nil_r. split; [reflexivity | intros x []].
    + intros [H|[]]. congruence.
Qed.

Lemma immediates_forgotten (l : list Immediate) : forall d : Device,
  ~ In n (immediateIds l) ->
  forgotten n d ->
  forgotten n (fold_left (runImmediate Poll) l d) /\
  untouched n d (fold_left (runImmediate Poll) l d).
Proof.
  induction l as [|i l IH]; intros d Hl Hf; simpl.
  - split; [exact Hf | apply untouched_refl].
  - destruct i as [|t]; simpl in Hl.
    + destruct (onTick_forgotten d Hf) as [Hf' Hu'].
      destruct (IH _ Hl Hf') as [Hf'' Hu''].
      split; [exact Hf'' | eapply untouched_trans; eassumption].
    + destruct (timeoutHandler_forgotten t d) as [Hf' Hu']; auto.
      destruct (IH (timeoutHandler t d)) as [Hf'' Hu'']; auto.
      split; [exact Hf'' | eapply untouched_trans; eassumption].
Qed.

Lemma emitData_forgotten (response : Buffer.t) (d : Device) :
  forgotten n d ->
  forgotten n (emitData getCRC16 Ack Nak response d) /\
  untouched n d (emitData getCRC16 Ack Nak response d).
Proof.
  intros (Hn & Hq & Ht & Hd & Hi).
  destruct (emitData_moved getCRC16 Ack Nak response d)
    as ([MQ MN MI MT MB ME] & T & D & _ & _).
  split.
  - unfold forgotten. rewrite MQ, MN, MI, T. repeat split; auto.
    + intros H. apply Ht. revert H. apply incl_map, remove_all_incl.
    + intros H. apply Hd. revert H. apply incl_map, D.
  - apply orderly_untouched with (map id (dataListeners d)).
    + apply emitData_orderly.
    + exact ME.
    + exact Hd.
Qed.

Lemma step_forgotten (d : Device) (e : Event) :
  forgotten n d ->
  forgotten n (step getCRC16 Ack Nak Poll d e) /\
  untouched n d (step getCRC16 Ack Nak Poll d e).
Proof.
  intros Hf. pose proof Hf as (Hn & Hq & Ht & Hd & Hi).
  destruct e as [command params tmo| | |frame| | |]; simpl.
  - now apply execute_forgotten.
  - destruct (timerInterval d); [|split; [exact Hf | apply untouched_refl]].
    split; [|now apply untouched_same].
    unfold forgotten, emitTick. simpl. repeat split; auto.
    rewrite immediateIds_app. simpl. rewrite immediateIds_timeouts.
    intros H. apply in_app_or in H as [H|H]; auto.
  - unfold runImmediates.
    destruct (immediates_forgotten (immediates d) (setImmediates [] d) Hi)
      as [Hf' Hu']; [repeat split; auto|].
    split; [exact Hf'|]. eapply untouched_trans; [|exact Hu'].
    now apply untouched_same.
  - now apply emitData_forgotten.
  - split; [repeat split; auto | now apply untouched_same].
  - split; [repeat split; auto | now apply untouched_same].
  - unfold disconnect, close. destruct (isOpen d).
    + split; [repeat split; auto | now apply untouched_same].
    + split; [exact Hf | apply untouched_refl].
Qed.

(** A task the device has let go is never called back and its promise
    never settled, whatever happens next. *)
Lemma run_forgotten (es : list Event) : forall d : Device,
  forgotten n d ->
  forgotten n (run getCRC16 Ack Nak Poll d es) /\
  untouched n d (run getCRC16 Ack Nak Poll d es).
Proof.
  induction es as [|e es IH]; intros d Hf.
  - split; [exact Hf | apply untouched_refl].
  - simpl. destruct (step_forgotten d e Hf) as [Hf' Hu'].
    destruct (IH _ Hf') as [Hf'' Hu''].
    split; [exact Hf'' | eapply untouched_trans; eassumption].
Qed.

(** X19.  A task the device has let go -- created, and neither in the
    queue nor a listener nor in a queued timeout body -- is done with:
    whatever events follow, its callback is not called again and the
    settlement of its promise does not change. *)
Theorem let_go_task_is_done_with (d : Device) (es : list Event) :
  forgotten n d ->
  timesDone n (effects (run getCRC16 Ack Nak Poll d es))
  = timesDone n (effects d) /\
  settlement n (effects (run getCRC16 Ack Nak Poll d es))
  = settlement n (effects d).
Proof.
  intros Hf. destruct (run_forgotten es d Hf) as [_ Hu].
  split; [now apply untouched_timesDone | now apply untouched_settlement].
Qed.

End Forgotten.

(** ** Replies *)

Lemma settlement_pending (n : nat) (l1 l2 : list Effect) :
  settlement n l1 = None -> settlement n (l1 ++ l2) = settlement n l2.
Proof.
  induction l1 as [|e l1 IH]; simpl; [reflexivity|].
  destruct e; auto; destruct (Nat.eqb task n); auto; discriminate.
Qed.

Lemma callDone_execute_error (t : Task) (command : Command) e p (d : Device) :
  done t = ExecuteSink command ->
  exists tail,
    effects (fst (rejected (callDone t (Some e) p d)))
    = effects d ++ Done t (Some e) p :: Reject (id t) e :: tail.
Proof.
  intros Hd. unfold callDone. rewrite Hd.
  destruct (response command p) as [v|y]; simpl.
  - exists [Resolve (id t) v]. now rewrite <- !app_assoc.
  - exists [UnhandledRejection y]. now rewrite <- !app_assoc.
Qed.

Lemma complete_execute (t : Task) (command : Command) (frame : Buffer.t)
    (d : Device) :
  done t = ExecuteSink command ->
  effects (complete t frame d)
  = effects d ++ Done t None (Some (payloadOf frame))
      :: match response command (Some (payloadOf frame)) with
         | inl v => [Resolve (id t) v]
         | inr x => [UnhandledRejection x]
         end.
Proof.
  intros Hd. unfold complete, callDone. rewrite Hd.
  destruct (response command (Some (payloadOf frame))) as [v|y]; simpl;
    now rewrite <- !app_assoc.
Qed.

Section Replies.

Variable getCRC16 : Buffer.t -> Buffer.t.
Variables Ack Nak Poll : Command.

(** A verified frame that is not the NAK byte: with the ACK byte the task
    is completed at once, otherwise after the ACK frame is written. *)
Lemma settle_not_nak (t : Task) (frame : Buffer.t) (d : Device) :
  notNak (payloadOf frame) = true ->
  settle Ack (dispatchResponse Ack t frame d)
  = if notAck (payloadOf frame)
    then complete t frame (emit (Write (request Ack [])) d)
    else complete t frame d.
Proof.
  unfold notNak, notAck, dispatchResponse. intros H.
  apply negb_true_iff in H. rewrite H.
  destruct ((Buffer.length (payloadOf frame) =? 1)
            && (Buffer.get (payloadOf frame) 0 =? 0)); reflexivity.
Qed.

Lemma emitData_not_nak (t : Task) (frame : Buffer.t) (d : Device) :
  dataListeners d = [t] ->
  checkCRC getCRC16 frame = true ->
  notNak (payloadOf frame) = true ->
  emitData getCRC16 Ack Nak frame d
  = if notAck (payloadOf frame)
    then complete t frame (emit (Write (request Ack [])) (strip t d))
    else complete t frame (strip t d).
Proof.
  intros Hl Hc Hn.
  rewrite (emitData_single _ _ _ t frame d Hl), handler_good_frame by assumption.
  now apply settle_not_nak.
Qed.

(** Once its handler has run, the device holds the task in flight
    nowhere. *)
Lemma emitData_lets_go (t : Task) (frame : Buffer.t) (d : Device) :
  dataListeners d = [t] ->
  tickListeners d = [] \/ tickListeners d = [t] ->
  ~ In (id t) (map id (queue d)) ->
  ~ In (id t) (immediateIds (immediates d)) ->
  (id t < nextId d)%nat ->
  forgotten (id t) (emitData getCRC16 Ack Nak frame d).
Proof.
  intros Hl Ht Hq Hi Hn.
  pose proof (emitData_control getCRC16 Ack Nak t frame d Hl) as Hc.
  unfold forgotten.
  replace (nextId (emitData getCRC16 Ack Nak frame d)) with (nextId d)
    by (clear - Hc; control_solve).
  replace (queue (emitData getCRC16 Ack Nak frame d)) with (queue d)
    by (clear - Hc; control_solve).
  replace (immediates (emitData getCRC16 Ack Nak frame d)) with (immediates d)
    by (clear - Hc; control_solve).
  replace (dataListeners (emitData getCRC16 Ack Nak frame d)) with (@nil Task)
    by (clear - Hc; control_solve).
  replace (tickListeners (emitData getCRC16 Ack Nak frame d))
    with (removeListener t (tickListeners d)) by (clear - Hc; control_solve).
  repeat split; auto.
  destruct Ht as [Ht|Ht]; rewrite Ht; simpl; [tauto|].
  rewrite Nat.eqb_refl. simpl. tauto.
Qed.

(** X4.  A verified reply that is neither the ACK byte nor the NAK byte,
    received for the only task in flight: the handler writes the ACK frame,
    then clears [busy] and calls the task's callback with no error and the
    payload of the frame; the task's listeners are gone and the queue is as
    it was. *)
Theorem reply_is_acknowledged_then_delivered
    (t : Task) (frame : Buffer.t) (d : Device) :
  dataListeners d = [t] ->
  checkCRC getCRC16 frame = true ->
  notAck (payloadOf frame) = true ->
  notNak (payloadOf frame) = true ->
  let d' := emitData getCRC16 Ack Nak frame d in
  busy d' = false /\ dataListeners d' = [] /\
  tickListeners d' = removeListener t (tickListeners d) /\
  queue d' = queue d /\
  exists tail,
    effects d' = effects d ++ Write (request Ack [])
                   :: Done t None (Some (payloadOf frame)) :: tail /\
    quiet tail.
Proof.
  intros Hl Hc Ha Hn d'.
  pose proof (emitData_control getCRC16 Ack Nak t frame d Hl) as Hctl.
  fold d' in Hctl.
  repeat split; try (clear - Hctl; control_solve).
  subst d'. rewrite (emitData_not_nak t frame d Hl Hc Hn), Ha.
  destruct (complete_spec t frame (emit (Write (request Ack [])) (strip t d)))
    as (tail & He & Hq & _).
  exists tail. simpl in He. rewrite He, <- app_assoc. auto.
Qed.

(** X5.  A verified reply other than the NAK byte, arriving for the only
    task in flight while no timeout body of that task is queued, calls the
    task's callback once, and no later event ever calls it again. *)
Theorem reply_calls_back_exactly_once
    (t : Task) (frame : Buffer.t) (d : Device) (es : list Event) :
  dataListeners d = [t] ->
  tickListeners d = [] \/ tickListeners d = [t] ->
  ~ In (id t) (map id (queue d)) ->
  ~ In (id t) (immediateIds (immediates d)) ->
  (id t < nextId d)%nat ->
  checkCRC getCRC16 frame = true ->
  notNak (payloadOf frame) = true ->
  timesDone (id t)
    (effects (run getCRC16 Ack Nak Poll (emitData getCRC16 Ack Nak frame d) es))
  = S (timesDone (id t) (effects d)).
Proof.
  intros Hl Ht Hq Hi Hlt Hc Hn.
  destruct (run_forgotten getCRC16 Ack Nak Poll (id t) es
              (emitData getCRC16 Ack Nak frame d)
              (emitData_lets_go t frame d Hl Ht Hq Hi Hlt)) as [_ Hu].
  rewrite (untouched_timesDone _ _ _ Hu).
  rewrite (emitData_not_nak t frame d Hl Hc Hn).
  destruct (notAck (payloadOf frame)).
  - destruct (complete_spec t frame (emit (Write (request Ack [])) (strip t d)))
      as (tail & He & Hq' & _).
    simpl in He. rewrite He, !timesDone_app, timesDone_Done,
      (quiet_timesDone _ _ Hq'). unfold timesDone at 2. simpl. lia.
  - destruct (complete_spec t frame (strip t d)) as (tail & He & Hq' & _).
    simpl in He. rewrite He, !timesDone_app, timesDone_Done,
      (quiet_timesDone _ _ Hq'). lia.
Qed.

(** X6.  The promise of [execute]: a verified reply other than the NAK
    byte, which the command's [response] reads into [v], resolves the
    promise with [v], and it stays so whatever happens next. *)
Theorem reply_resolves_promise
    (t : Task) (command : Command) (v : Buffer.t) (frame : Buffer.t)
    (d : Device) (es : list Event) :
  dataListeners d = [t] ->
  done t = ExecuteSink command ->
  settlement (id t) (effects d) = None ->
  checkCRC getCRC16 frame = true ->
  notNak (payloadOf frame) = true ->
  response command (Some (payloadOf frame)) = inl v ->
  settlement (id t)
    (effects (run getCRC16 Ack Nak Poll (emitData getCRC16 Ack Nak frame d) es))
  = Some (inl v).
Proof.
  intros Hl Hd Hs Hc Hn Hr. apply settlement_kept.
  rewrite (emitData_not_nak t frame d Hl Hc Hn).
  destruct (notAck (payloadOf frame));
    rewrite (complete_execute t command frame _ Hd), Hr; simpl;
    rewrite ?(settlement_pending _ _ _ Hs); rewrite <- ?app_assoc;
    rewrite ?(settlement_pending _ _ _ Hs); simpl; now rewrite Nat.eqb_refl.
Qed.


(** The two failures of an exchange and what each rejects the promise
    with. *)
Lemma failed_frame_settlement
    (t : Task) (command : Command) (frame : Buffer.t)
    (d : Device) (es : list Event) :
  dataListeners d = [t] ->
  done t = ExecuteSink command ->
  settlement (id t) (effects d) = None ->
  (checkCRC getCRC16 frame = false ->
   settlement (id t)
     (effects (run getCRC16 Ack Nak Poll (emitData getCRC16 Ack Nak frame d) es))
   = Some (inr wrongResponseHash)) /\
  (checkCRC getCRC16 frame = true -> payloadOf frame = [0xFF] ->
   settlement (id t)
     (effects (run getCRC16 Ack Nak Poll (emitData getCRC16 Ack Nak frame d) es))
   = Some (inr wrongRequestHash)).
Proof.
  intros Hl Hd Hs. split.
  - intros Hbad. apply settlement_kept.
    rewrite (emitData_single _ _ _ t frame d Hl), handler_bad_frame by assumption.
    rewrite settle_after_nak.
    destruct (callDone_execute_error t command wrongResponseHash None
                (setBusy false
                   (emit (Write (request Nak []))
                      (setDataListeners (removeListener t (dataListeners d))
                         (setTickListeners (removeListener t (tickListeners d)) d))))
                Hd) as (tail & He).
    simpl in He.
    assert (Hset : forall l,
               settlement (id t)
                 (((effects d ++ [Write (request Nak [])]) ++
                   Done t (Some wrongResponseHash) None
                   :: Reject (id t) wrongResponseHash :: tail) ++ l)
               = Some (inr wrongResponseHash)).
    { intros l. rewrite <- !app_assoc. rewrite (settlement_pending _ _ _ Hs).
      simpl. now rewrite Nat.eqb_refl. }
    destruct (rejected _) as [d1 [y|]]; simpl in He.
    + rewrite He. rewrite <- (app_nil_r (_ ++ _ :: _)). apply Hset.
    + destruct (dispatch_calls_back Ack t frame d1) as (l & He' & _).
      rewrite He', He. apply Hset.
  - intros Hok Hp. apply settlement_kept.
    rewrite (emitData_single _ _ _ t frame d Hl), handler_good_frame by assumption.
    rewrite dispatch_nak by assumption.
    destruct (callDone_execute_error t command wrongRequestHash None
                (setBusy false
                   (setDataListeners (removeListener t (dataListeners d))
                      (setTickListeners (removeListener t (tickListeners d)) d)))
                Hd) as (tail & He).
    simpl in He.
    assert (Hset : forall l,
               settlement (id t)
                 ((effects d ++
                   Done t (Some wrongRequestHash) None
                   :: Reject (id t) wrongRequestHash :: tail) ++ l)
               = Some (inr wrongRequestHash)).
    { intros l. rewrite <- !app_assoc. rewrite (settlement_pending _ _ _ Hs).
      simpl. now rewrite Nat.eqb_refl. }
    destruct (rejected _) as [d1 [y|]]; simpl in He |- *.
    + rewrite He. rewrite <- (app_nil_r (_ ++ _ :: _)). apply Hset.
    + destruct (complete_spec t frame d1) as (tail' & He' & _ & _).
      simpl in He'. rewrite He', He. apply Hset.
Qed.

(** X8.  The promise of [execute] on a failed exchange: a frame that fails
    the checksum test rejects it with [(11, "Wrong response data hash.")],
    a verified NAK byte with [(11, "Wrong request data hash.")], and it
    stays rejected whatever happens next -- the second call that the
    handler makes of the callback does not change it. *)
Theorem failed_frame_rejects_promise
    (t : Task) (command : Command) (frame : Buffer.t)
    (d : Device) (es : list Event) :
  dataListeners d = [t] ->
  done t = ExecuteSink command ->
  settlement (id t) (effects d) = None ->
  checkCRC getCRC16 frame = false \/ payloadOf frame = [0xFF] ->
  settlement (id t)
    (effects (run getCRC16 Ack Nak Poll (emitData getCRC16 Ack Nak frame d) es))
  = Some (inr (if checkCRC getCRC16 frame
               then wrongRequestHash else wrongResponseHash)).
Proof.
  intros Hl Hd Hs Hf.
  destruct (failed_frame_settlement t command frame d es Hl Hd Hs) as [Hbad Hnak].
  destruct (checkCRC getCRC16 frame) eqn:E.
  - destruct Hf as [Hf|Hf]; [discriminate | now apply Hnak].
  - now apply Hbad.
Qed.



End Replies.

(** ** A device that hears nothing *)

Section Silence.

Variable getCRC16 : Buffer.t -> Buffer.t.
Variables Ack Nak Poll : Command.





Lemma stopped_step (d : Device) (e : Event) :
  timerInterval d = false -> immediates d = [] ->
  quietEvent e = true ->
  let d' := step getCRC16 Ack Nak Poll d e in
  timerInterval d' = false /\ immediates d' = [] /\
  effects d' = effects d /\ busy d' = busy d /\
  dataListeners d' = dataListeners d /\ tickListeners d' = tickListeners d.
Proof.
  intros Ht Hi He.
  destruct e as [command params tmo| | |frame| | |]; simpl in *;
    try discriminate.
  - repeat split; auto.
  - rewrite Ht. repeat split; auto.
  - unfold runImmediates. rewrite Hi. simpl. repeat split; auto.
  - repeat split; auto.
  - unfold disconnect, close. destruct (isOpen d); simpl; repeat split; auto.
Qed.

(** X11.  After [disconnect] on an open port with no immediate queued, and
    until the port is opened again or a frame arrives, the device does
    nothing: no tick reaches [onTick] or a timeout handler, so nothing is
    written and no callback is called, not even for a timeout. *)
Theorem disconnected_device_is_inert (d : Device) (es : list Event) :
  isOpen d = true ->
  immediates d = [] ->
  forallb quietEvent es = true ->
  let d' := run getCRC16 Ack Nak Poll (disconnect d) es in
  effects d' = effects d /\ busy d' = busy d /\
  dataListeners d' = dataListeners d /\ tickListeners d' = tickListeners d.
Proof.
  intros Ho Hi Hes d'. subst d'.
  assert (H : forall es d0,
             timerInterval d0 = false -> immediates d0 = [] ->
             forallb quietEvent es = true ->
             let d' := run getCRC16 Ack Nak Poll d0 es in
             effects d' = effects d0 /\ busy d' = busy d0 /\
             dataListeners d' = dataListeners d0 /\
             tickListeners d' = tickListeners d0).
  { clear. induction es as [|e es IH]; intros d0 Ht Hi Hes; simpl; [auto|].
    simpl in Hes. apply andb_prop in Hes as [He Hes].
    destruct (stopped_step d0 e Ht Hi He) as (Ht' & Hi' & E1 & E2 & E3 & E4).
    destruct (IH _ Ht' Hi' Hes) as (F1 & F2 & F3 & F4).
    repeat split; congruence. }
  unfold disconnect, close. rewrite Ho.
  destruct (H es (onSerialPortClose (setIsOpen false d))) as (E1 & E2 & E3 & E4);
    auto.
Qed.

(** X12.  One cycle of polling.  An engine at rest puts a [Poll] in the
    queue at the first tick and sends it at the second; a verified reply
    that is neither the ACK nor the NAK byte is acknowledged and handed to
    [onStatus], and the engine is at rest again. *)
Theorem poll_cycle_returns_to_rest (frame : Buffer.t) (d : Device) :
  atRest d ->
  checkCRC getCRC16 frame = true ->
  notAck (payloadOf frame) = true ->
  notNak (payloadOf frame) = true ->
  let d1 := run getCRC16 Ack Nak Poll d period in
  let d2 := run getCRC16 Ack Nak Poll d1 period in
  let d3 := step getCRC16 Ack Nak Poll d2 (Data frame) in
  effects d1 = effects d /\
  effects d2 = effects d ++ [Write (request Poll [])] /\
  effects d3
  = effects d ++ [Write (request Poll []);
                  Write (request Ack []);
                  Done (pollTask Poll (nextId d)) None (Some (payloadOf frame));
                  OnStatus (Some (payloadOf frame))] /\
  atRest d3 /\ nextId d3 = S (nextId d).
Proof.
  intros (Hb & Hq & Ht & Hd & Hi & Hti) Hc Ha Hn.
  destruct d as [b q o ti tl dl tc im n ef]; simpl in *. subst.
  split; [reflexivity|]. split; [reflexivity|].
  match goal with
  | |- context [emitData getCRC16 Ack Nak frame ?x] =>
      rewrite (emitData_not_nak getCRC16 Ack Nak (pollTask Poll n) frame x eq_refl Hc Hn)
  end.
  rewrite Ha. unfold complete, callDone, strip, atRest. simpl.
  rewrite Nat.eqb_refl. simpl. rewrite <- !app_assoc. simpl.
  repeat split.
Qed.

End Silence.

(** ** Waiting for an event *)

Lemma wait_run_app (w : AsyncOnce.Wait) (h1 h2 : list AsyncOnce.Happening) :
  AsyncOnce.run w (h1 ++ h2) = AsyncOnce.run (AsyncOnce.run w h1) h2.
Proof. unfold AsyncOnce.run. apply fold_left_app. Qed.

Lemma tickPeriods_snoc (n : nat) :
  AsyncOnce.tickPeriods n ++ AsyncOnce.tickPeriod = AsyncOnce.tickPeriods (S n).
Proof.
  induction n as [|n IH]; [reflexivity|].
  change (AsyncOnce.tickPeriods (S n) ++ AsyncOnce.tickPeriod)
    with ((AsyncOnce.tickPeriod ++ AsyncOnce.tickPeriods n) ++ AsyncOnce.tickPeriod).
  rewrite <- app_assoc, IH. reflexivity.
Qed.

(** A period in which the timeout of a pending wait is not yet due. *)
Lemma wait_period_silent (w : AsyncOnce.Wait) :
  AsyncOnce.pending w ->
  AsyncOnce.event w <> "tick"%string ->
  AsyncOnce.timeout w <> 0 ->
  AsyncOnce.timeoutCounter w + timerMs < AsyncOnce.timeout w ->
  let w' := AsyncOnce.run w AsyncOnce.tickPeriod in
  AsyncOnce.pending w' /\
  AsyncOnce.event w' = AsyncOnce.event w /\
  AsyncOnce.timeout w' = AsyncOnce.timeout w /\
  AsyncOnce.timeoutCounter w' = AsyncOnce.timeoutCounter w + timerMs.
Proof.
  intros (Hc & He & Hd & Ht) Hev Hz Hlt.
  destruct w as [ev tmo c oe ot df cl]; cbn -[Z.eqb] in *. subst.
  assert (E0 : (tmo =? 0) = false) by now apply Z.eqb_neq.
  assert (E1 : ("tick" =? ev)%string = false).
  { apply String.eqb_neq. congruence. }
  unfold AsyncOnce.run, AsyncOnce.tickPeriod, AsyncOnce.pending.
  cbn -[String.eqb Z.geb Z.add timerMs Z.eqb].
  unfold AsyncOnce.emit. cbn -[String.eqb Z.geb Z.add timerMs Z.eqb].
  rewrite E0, E1, String.eqb_refl. cbn -[String.eqb Z.geb Z.add timerMs Z.eqb].
  unfold AsyncOnce.check, AsyncOnce.timeoutHandler.
  cbn -[String.eqb Z.geb Z.add timerMs Z.eqb].
  unfold AsyncOnce.body. cbn -[String.eqb Z.geb Z.add timerMs Z.eqb].
  destruct (c + timerMs >=? tmo) eqn:E;
    [rewrite Z.geb_leb in E; apply Z.leb_le in E; lia|].
  cbn -[String.eqb Z.geb Z.add timerMs Z.eqb]. rewrite E0. repeat split.
Qed.

(** X13.  [asyncOnce(event, T)] with a timeout [T] and an event other than
    ['tick'] that is not emitted: the promise is untouched through the
    [n] periods with [100 * n < T] and rejected in the next one, when the
    counter reaches [T]; the timeout handler is then removed and the
    listener of [event] is not. *)
Theorem wait_rejects_on_due_tick (event : string) (T : Z) (n : nat) :
  event <> "tick"%string ->
  timerMs * Z.of_nat n < T <= timerMs * Z.of_nat (S n) ->
  AsyncOnce.calls
    (AsyncOnce.run (AsyncOnce.asyncOnce event T) (AsyncOnce.tickPeriods n)) = [] /\
  let w := AsyncOnce.run (AsyncOnce.asyncOnce event T) (AsyncOnce.tickPeriods (S n)) in
  AsyncOnce.calls w = [AsyncOnce.CallReject] /\
  AsyncOnce.onTick w = false /\ AsyncOnce.onEvent w = true.
Proof.
  intros Hev [Hlo Hhi].
  assert (HT : T <> 0) by (unfold timerMs in *; lia).
  assert (Hn : forall m, timerMs * Z.of_nat m < T ->
             let w := AsyncOnce.run (AsyncOnce.asyncOnce event T)
                        (AsyncOnce.tickPeriods m) in
             AsyncOnce.pending w /\ AsyncOnce.event w = event /\
             AsyncOnce.timeout w = T /\
             AsyncOnce.timeoutCounter w = timerMs * Z.of_nat m).
  { induction m as [|m IH]; intros Hm.
    - simpl. unfold AsyncOnce.pending. simpl. repeat split.
    - rewrite <- tickPeriods_snoc, wait_run_app.
      destruct IH as (Hp & He & Ht & Hc); [unfold timerMs in *; lia|].
      destruct (wait_period_silent _ Hp) as (Hp' & He' & Ht' & Hc');
        try congruence.
      { rewrite Hc, Ht. unfold timerMs in *. lia. }
      split; [exact Hp'|]. split; [congruence|]. split; [congruence|].
      rewrite Hc', Hc. unfold timerMs. lia. }
  destruct (Hn n Hlo) as (Hp & He & Ht & Hc).
  split; [apply Hp|].
  rewrite <- tickPeriods_snoc, wait_run_app.
  destruct (AsyncOnce.run (AsyncOnce.asyncOnce event T) (AsyncOnce.tickPeriods n))
    as [ev tmo c oe ot df cl].
  destruct Hp as (Hcl & Hoe & Hdf & Hot). cbn -[Z.eqb Z.mul timerMs] in *. subst.
  assert (E0 : (T =? 0) = false) by now apply Z.eqb_neq.
  assert (E1 : ("tick" =? event)%string = false).
  { apply String.eqb_neq. congruence. }
  unfold AsyncOnce.run, AsyncOnce.tickPeriod.
  cbn -[String.eqb Z.geb Z.add Z.mul timerMs Z.eqb].
  unfold AsyncOnce.emit. cbn -[String.eqb Z.geb Z.add Z.mul timerMs Z.eqb].
  rewrite E0, E1, String.eqb_refl.
  cbn -[String.eqb Z.geb Z.add Z.mul timerMs Z.eqb].
  unfold AsyncOnce.check, AsyncOnce.timeoutHandler.
  cbn -[String.eqb Z.geb Z.add Z.mul timerMs Z.eqb].
  unfold AsyncOnce.body. cbn -[String.eqb Z.geb Z.add Z.mul timerMs Z.eqb].
  destruct (timerMs * Z.of_nat n + timerMs >=? T) eqn:E;
    [|rewrite Z.geb_leb in E; apply Z.leb_gt in E; unfold timerMs in *; lia].
  cbn. repeat split.
Qed.

(** A wait with no listener and no body left does nothing more. *)
Lemma wait_spent (hs : list AsyncOnce.Happening) : forall w : AsyncOnce.Wait,
  AsyncOnce.onEvent w = false -> AsyncOnce.onTick w = false ->
  AsyncOnce.deferred w = 0%nat ->
  AsyncOnce.calls (AsyncOnce.run w hs) = AsyncOnce.calls w.
Proof.
  induction hs as [|h hs IH]; intros w He Ht Hd; [reflexivity|].
  simpl. destruct w as [ev tmo c oe ot df cl]; simpl in *. subst.
  destruct h as [name|].
  - unfold AsyncOnce.emit. simpl. now rewrite IH.
  - unfold AsyncOnce.check. simpl. now rewrite IH.
Qed.

(** X14.  When the awaited event, other than ['tick'], is emitted for a
    pending wait, the promise is resolved, both listeners are gone, and
    nothing that happens later calls [resolve] or [reject] again. *)
Theorem event_resolves_wait_for_good
    (w : AsyncOnce.Wait) (hs : list AsyncOnce.Happening) :
  AsyncOnce.pending w ->
  AsyncOnce.event w <> "tick"%string ->
  AsyncOnce.calls
    (AsyncOnce.run (AsyncOnce.emit (AsyncOnce.event w) w) hs)
  = [AsyncOnce.CallResolve].
Proof.
  intros (Hc & He & Hd & Ht) Hev.
  destruct w as [ev tmo c oe ot df cl]; cbn -[Z.eqb] in *. subst.
  assert (E1 : ((ev =? "tick")%string = false)) by now apply String.eqb_neq.
  unfold AsyncOnce.emit. cbn -[String.eqb Z.eqb].
  rewrite String.eqb_refl, E1, andb_false_r. cbn -[String.eqb Z.eqb].
  rewrite wait_spent; cbn -[String.eqb Z.eqb]; auto.
  destruct (tmo =? 0); reflexivity.
Qed.

(** X15.  [asyncOnce(event, 0)] has no timeout handler: whatever happens,
    [reject] is never called. *)
Theorem untimed_wait_never_rejects (event : string) (hs : list AsyncOnce.Happening) :
  ~ In AsyncOnce.CallReject
      (AsyncOnce.calls (AsyncOnce.run (AsyncOnce.asyncOnce event 0) hs)).
Proof.
  assert (H : forall hs w,
             AsyncOnce.onTick w = false -> AsyncOnce.deferred w = 0%nat ->
             AsyncOnce.timeout w = 0 ->
             ~ In AsyncOnce.CallReject (AsyncOnce.calls w) ->
             ~ In AsyncOnce.CallReject (AsyncOnce.calls (AsyncOnce.run w hs))).
  { clear. induction hs as [|h hs IH]; intros w Ht Hd Hz Hc; [exact Hc|].
    simpl. destruct w as [ev tmo c oe ot df cl]; simpl in *. subst.
    destruct h as [name|].
    - unfold AsyncOnce.emit. cbn -[String.eqb].
      destruct (oe && (name =? ev)%string); cbn -[String.eqb]; apply IH;
        cbn -[String.eqb]; auto.
      intros Hin. apply in_app_or in Hin as [Hin|[Hin|[]]]; [auto|discriminate].
    - unfold AsyncOnce.check. simpl. apply IH; simpl; auto. }
  apply H; simpl; auto.
Qed.

(** ** Connecting *)

Lemma completedTasks_app (l1 l2 : list Effect) :
  completedTasks (l1 ++ l2) = completedTasks l1 ++ completedTasks l2.
Proof.
  induction l1 as [|e l1 IH]; simpl; [reflexivity|].
  destruct e; simpl; now rewrite IH.
Qed.

Section ConnectFacts.

Variable getCRC16 : Buffer.t -> Buffer.t.
Variables Ack Nak Poll : Command.
Variables Reset Identification GetBillTable GetCRC32OfTheCode : Command.














End ConnectFacts.

(** ** Instances *)

(** The head of a frame with the payload byte [0x33], and its checksum. *)
Lemma checkCRC_own_checksum_witness :
  List.length (Utils.getCRC16 [0x02; 0x03; 0x06; 0x33]) = 2%nat /\
  checkCRC Utils.getCRC16
    ([0x02; 0x03; 0x06; 0x33] ++ Utils.getCRC16 [0x02; 0x03; 0x06; 0x33]) = true.
Proof.
  assert (H : List.length (Utils.getCRC16 [0x02; 0x03; 0x06; 0x33]) = 2%nat)
    by (vm_compute; reflexivity).
  split; [exact H|].
  exact (checkCRC_own_checksum Utils.getCRC16 [0x02; 0x03; 0x06; 0x33] H).
Defined.



(** The reply [goodFrame] to the command in flight. *)
Lemma reply_is_acknowledged_then_delivered_witness :
  dataListeners inFlightDevice = [firstTask] /\
  checkCRC Utils.getCRC16 goodFrame = true /\
  notAck (payloadOf goodFrame) = true /\
  notNak (payloadOf goodFrame) = true /\
  let d' := emitData Utils.getCRC16 AckCommand NakCommand goodFrame
              inFlightDevice in
  busy d' = false /\ dataListeners d' = [] /\
  tickListeners d' = removeListener firstTask (tickListeners inFlightDevice) /\
  queue d' = queue inFlightDevice /\
  exists tail,
    effects d' = effects inFlightDevice ++ Write (request AckCommand [])
                   :: Done firstTask None (Some (payloadOf goodFrame)) :: tail /\
    quiet tail.
Proof.
  assert (Hl : dataListeners inFlightDevice = [firstTask])
    by (vm_compute; reflexivity).
  assert (Hc : checkCRC Utils.getCRC16 goodFrame = true)
    by (vm_compute; reflexivity).
  assert (Ha : notAck (payloadOf goodFrame) = true) by (vm_compute; reflexivity).
  assert (Hn : notNak (payloadOf goodFrame) = true) by (vm_compute; reflexivity).
  split; [exact Hl|]. split; [exact Hc|]. split; [exact Ha|]. split; [exact Hn|].
  exact (reply_is_acknowledged_then_delivered
           Utils.getCRC16 AckCommand NakCommand
           firstTask goodFrame inFlightDevice Hl Hc Ha Hn).
Defined.

(** The same reply, and three periods after it. *)
Lemma reply_calls_back_exactly_once_witness :
  dataListeners inFlightDevice = [firstTask] /\
  (tickListeners inFlightDevice = [] \/ tickListeners inFlightDevice = [firstTask]) /\
  ~ In (id firstTask) (map id (queue inFlightDevice)) /\
  ~ In (id firstTask) (immediateIds (immediates inFlightDevice)) /\
  (id firstTask < nextId inFlightDevice)%nat /\
  checkCRC Utils.getCRC16 goodFrame = true /\
  notNak (payloadOf goodFrame) = true /\
  timesDone (id firstTask)
    (effects (run Utils.getCRC16 AckCommand NakCommand PollCommand
                (emitData Utils.getCRC16 AckCommand NakCommand goodFrame
                   inFlightDevice) (periods 3)))
  = S (timesDone (id firstTask) (effects inFlightDevice)).
Proof.
  assert (Hl : dataListeners inFlightDevice = [firstTask])
    by (vm_compute; reflexivity).
  assert (Ht : tickListeners inFlightDevice = []
               \/ tickListeners inFlightDevice = [firstTask])
    by (right; vm_compute; reflexivity).
  assert (Hq : ~ In (id firstTask) (map id (queue inFlightDevice)))
    by (vm_compute; tauto).
  assert (Hi : ~ In (id firstTask) (immediateIds (immediates inFlightDevice)))
    by (vm_compute; tauto).
  assert (Hlt : (id firstTask < nextId inFlightDevice)%nat)
    by (vm_compute; lia).
  assert (Hc : checkCRC Utils.getCRC16 goodFrame = true)
    by (vm_compute; reflexivity).
  assert (Hn : notNak (payloadOf goodFrame) = true) by (vm_compute; reflexivity).
  split; [exact Hl|]. split; [exact Ht|]. split; [exact Hq|]. split; [exact Hi|].
  split; [exact Hlt|]. split; [exact Hc|]. split; [exact Hn|].
  exact (reply_calls_back_exactly_once
           Utils.getCRC16 AckCommand NakCommand PollCommand
           firstTask goodFrame inFlightDevice (periods 3)
           Hl Ht Hq Hi Hlt Hc Hn).
Defined.

(** [Inquiry] hands the payload [0x10] of [goodFrame] back. *)
Lemma reply_resolves_promise_witness :
  dataListeners inFlightDevice = [firstTask] /\
  done firstTask = ExecuteSink Inquiry /\
  settlement (id firstTask) (effects inFlightDevice) = None /\
  checkCRC Utils.getCRC16 goodFrame = true /\
  notNak (payloadOf goodFrame) = true /\
  response Inquiry (Some (payloadOf goodFrame)) = inl [0x10] /\
  settlement (id firstTask)
    (effects (run Utils.getCRC16 AckCommand NakCommand PollCommand
                (emitData Utils.getCRC16 AckCommand NakCommand goodFrame
                   inFlightDevice) (periods 3)))
  = Some (inl [0x10]).
Proof.
  assert (Hl : dataListeners inFlightDevice = [firstTask])
    by (vm_compute; reflexivity).
  assert (Hd : done firstTask = ExecuteSink Inquiry) by reflexivity.
  assert (Hs : settlement (id firstTask) (effects inFlightDevice) = None)
    by (vm_compute; reflexivity).
  assert (Hc : checkCRC Utils.getCRC16 goodFrame = true)
    by (vm_compute; reflexivity).
  assert (Hn : notNak (payloadOf goodFrame) = true) by (vm_compute; reflexivity).
  assert (Hr : response Inquiry (Some (payloadOf goodFrame)) = inl [0x10])
    by (vm_compute; reflexivity).
  split; [exact Hl|]. split; [exact Hd|]. split; [exact Hs|]. split; [exact Hc|].
  split; [exact Hn|]. split; [exact Hr|].
  exact (reply_resolves_promise
           Utils.getCRC16 AckCommand NakCommand PollCommand
           firstTask Inquiry [0x10] goodFrame inFlightDevice (periods 3)
           Hl Hd Hs Hc Hn Hr).
Defined.


(** [badFrame] fails the checksum test. *)
Lemma failed_frame_rejects_promise_witness :
  dataListeners inFlightDevice = [firstTask] /\
  done firstTask = ExecuteSink Inquiry /\
  settlement (id firstTask) (effects inFlightDevice) = None /\
  (checkCRC Utils.getCRC16 badFrame = false \/ payloadOf badFrame = [0xFF]) /\
  settlement (id firstTask)
    (effects (run Utils.getCRC16 AckCommand NakCommand PollCommand
                (emitData Utils.getCRC16 AckCommand NakCommand badFrame
                   inFlightDevice) (periods 3)))
  = Some (inr (if checkCRC Utils.getCRC16 badFrame
               then wrongRequestHash else wrongResponseHash)).
Proof.
  assert (Hl : dataListeners inFlightDevice = [firstTask])
    by (vm_compute; reflexivity).
  assert (Hd : done firstTask = ExecuteSink Inquiry) by reflexivity.
  assert (Hs : settlement (id firstTask) (effects inFlightDevice) = None)
    by (vm_compute; reflexivity).
  assert (Hf : checkCRC Utils.getCRC16 badFrame = false
               \/ payloadOf badFrame = [0xFF])
    by (left; vm_compute; reflexivity).
  split; [exact Hl|]. split; [exact Hd|]. split; [exact Hs|]. split; [exact Hf|].
  exact (failed_frame_rejects_promise
           Utils.getCRC16 AckCommand NakCommand PollCommand
           firstTask Inquiry badFrame inFlightDevice (periods 3) Hl Hd Hs Hf).
Defined.



(** [disconnect] with one task in flight and one queued, then twenty
    periods. *)
Lemma disconnected_device_is_inert_witness :
  isOpen midway = true /\
  immediates midway = [] /\
  forallb quietEvent (periods 20) = true /\
  let d' := run Utils.getCRC16 AckCommand NakCommand PollCommand
              (disconnect midway) (periods 20) in
  effects d' = effects midway /\ busy d' = busy midway /\
  dataListeners d' = dataListeners midway /\
  tickListeners d' = tickListeners midway.
Proof.
  assert (Ho : isOpen midway = true) by (vm_compute; reflexivity).
  assert (Hi : immediates midway = []) by (vm_compute; reflexivity).
  assert (Hq : forallb quietEvent (periods 20) = true)
    by (vm_compute; reflexivity).
  split; [exact Ho|]. split; [exact Hi|]. split; [exact Hq|].
  exact (disconnected_device_is_inert
           Utils.getCRC16 AckCommand NakCommand PollCommand
           midway (periods 20) Ho Hi Hq).
Defined.

(** The first cycle of polling of a device just opened. *)
Lemma poll_cycle_returns_to_rest_witness :
  atRest openDevice /\
  checkCRC Utils.getCRC16 goodFrame = true /\
  notAck (payloadOf goodFrame) = true /\
  notNak (payloadOf goodFrame) = true /\
  let d1 := run Utils.getCRC16 AckCommand NakCommand PollCommand
              openDevice period in
  let d2 := run Utils.getCRC16 AckCommand NakCommand PollCommand d1 period in
  let d3 := step Utils.getCRC16 AckCommand NakCommand PollCommand d2
              (Data goodFrame) in
  effects d1 = effects openDevice /\
  effects d2 = effects openDevice ++ [Write (request PollCommand [])] /\
  effects d3
  = effects openDevice
      ++ [Write (request PollCommand []);
          Write (request AckCommand []);
          Done (pollTask PollCommand (nextId openDevice)) None
            (Some (payloadOf goodFrame));
          OnStatus (Some (payloadOf goodFrame))] /\
  atRest d3 /\ nextId d3 = S (nextId openDevice).
Proof.
  assert (Hr : atRest openDevice) by (vm_compute; repeat split).
  assert (Hc : checkCRC Utils.getCRC16 goodFrame = true)
    by (vm_compute; reflexivity).
  assert (Ha : notAck (payloadOf goodFrame) = true) by (vm_compute; reflexivity).
  assert (Hn : notNak (payloadOf goodFrame) = true) by (vm_compute; reflexivity).
  split; [exact Hr|]. split; [exact Hc|]. split; [exact Ha|]. split; [exact Hn|].
  exact (poll_cycle_returns_to_rest
           Utils.getCRC16 AckCommand NakCommand PollCommand
           goodFrame openDevice Hr Hc Ha Hn).
Defined.

(** A wait of 1000 for ['connect']: nine periods, then the tenth. *)
Lemma wait_rejects_on_due_tick_witness :
  "connect"%string <> "tick"%string /\
  timerMs * Z.of_nat 9 < 1000 <= timerMs * Z.of_nat 10 /\
  AsyncOnce.calls
    (AsyncOnce.run (AsyncOnce.asyncOnce "connect" 1000) (AsyncOnce.tickPeriods 9))
  = [] /\
  let w := AsyncOnce.run (AsyncOnce.asyncOnce "connect" 1000)
             (AsyncOnce.tickPeriods 10) in
  AsyncOnce.calls w = [AsyncOnce.CallReject] /\
  AsyncOnce.onTick w = false /\ AsyncOnce.onEvent w = true.
Proof.
  assert (He : "connect"%string <> "tick"%string) by discriminate.
  assert (Hr : timerMs * Z.of_nat 9 < 1000 <= timerMs * Z.of_nat 10)
    by (vm_compute; split; [reflexivity | discriminate]).
  split; [exact He|]. split; [exact Hr|].
  exact (wait_rejects_on_due_tick "connect" 1000 9 He Hr).
Defined.

(** The same wait when ['connect'] is emitted at once, and three periods
    after. *)
Lemma event_resolves_wait_for_good_witness :
  AsyncOnce.pending connectWait /\
  AsyncOnce.event connectWait <> "tick"%string /\
  AsyncOnce.calls
    (AsyncOnce.run (AsyncOnce.emit (AsyncOnce.event connectWait) connectWait)
       (AsyncOnce.tickPeriods 3))
  = [AsyncOnce.CallResolve].
Proof.
  assert (Hp : AsyncOnce.pending connectWait) by (vm_compute; repeat split).
  assert (He : AsyncOnce.event connectWait <> "tick"%string)
    by (vm_compute; discriminate).
  split; [exact Hp|]. split; [exact He|].
  exact (event_resolves_wait_for_good connectWait (AsyncOnce.tickPeriods 3) Hp He).
Defined.




(** The answered command of [answeredRun], three periods on. *)
Lemma let_go_task_is_done_with_witness :
  forgotten 0 answeredDevice /\
  timesDone 0
    (effects (run Utils.getCRC16 AckCommand NakCommand PollCommand
                answeredDevice (periods 3)))
  = timesDone 0 (effects answeredDevice) /\
  settlement 0
    (effects (run Utils.getCRC16 AckCommand NakCommand PollCommand
                answeredDevice (periods 3)))
  = settlement 0 (effects answeredDevice).
Proof.
  assert (Hf : forgotten 0 answeredDevice)
    by (vm_compute; repeat split; try lia; intuition discriminate).
  split; [exact Hf|].
  exact (let_go_task_is_done_with
           Utils.getCRC16 AckCommand NakCommand PollCommand
           0 answeredDevice (periods 3) Hf).
Defined.
